(** * mailblog subscription handler

    A shallow embedding of [src/mailblog/subscription/handler.py]: the
    double opt-in subscription handler behind API Gateway, with its
    DynamoDB table, its SES sender and its template files as an explicit
    world that every handler threads through.

    Python values are dynamically typed; the embedding keeps them so.
    Exceptions are modelled by a result type, and the world survives a
    raise (nothing is rolled back when an [except] block runs). Calls to
    [logger] write to a log the handler never reads and are left out. *)

From Stdlib Require Import ZArith NArith Ascii String.
From Stdlib.Strings Require Import Byte.
From stdpp Require Import base option list strings gmap fin_maps pretty.

Local Open Scope string_scope.
Local Open Scope Z_scope.

#[local] Set Warnings "-register-all".

(** ** Python values *)

(** The values an event, a decoded JSON body or a table item can hold.
    Numbers are integers: the handler never computes with a number, and
    floating point values are left out. *)
Inductive value :=
| VNone
| VBool (b : bool)
| VInt (z : Z)
| VStr (s : string)
| VList (l : list value)
| VDict (d : gmap string value).

(** A table item and an API Gateway event are both Python dicts with str
    keys: [gmap string value]. *)

(** [bool(v)]: what [if v] and [not v] look at. *)
Definition truthy (v : value) : bool :=
  match v with
  | VNone => false
  | VBool b => b
  | VInt z => negb (z =? 0)
  | VStr s => negb (bool_decide (s = EmptyString))
  | VList l => negb (bool_decide (length l = 0%nat))
  | VDict d => negb (bool_decide (size d = 0%nat))
  end.

(** [a == b]. [bool] is a subclass of [int], so [True == 1]; values of
    different kinds are otherwise unequal; lists compare element by
    element and dicts entry by entry. *)
Fixpoint py_eq (a b : value) : bool :=
  match a, b with
  | VNone, VNone => true
  | VBool x, VBool y => bool_decide (x = y)
  | VBool x, VInt y | VInt y, VBool x => bool_decide (Z.b2z x = y)
  | VInt x, VInt y => bool_decide (x = y)
  | VStr x, VStr y => bool_decide (x = y)
  | VList xs, VList ys =>
      (fix go (xs ys : list value) : bool :=
         match xs, ys with
         | [], [] => true
         | x :: xs', y :: ys' => py_eq x y && go xs' ys'
         | _, _ => false
         end) xs ys
  | VDict d1, VDict d2 =>
      bool_decide (dom d1 = dom d2) &&
      map_fold (fun k v acc =>
                  acc && match d2 !! k with
                         | Some v' => py_eq v v'
                         | None => false
                         end) true d1
  | _, _ => false
  end.

(** [a != b] *)
Definition py_ne (a b : value) : bool := negb (py_eq a b).

(** [d.get(k)] on a dict held in a Rocq map: [None] when the key is
    missing. *)
Definition dict_get (d : gmap string value) (k : string) : value :=
  default VNone (d !! k).

(** ** Exceptions and results *)

Inductive exn :=
| KeyError
| JSONDecodeError
| ValueError (msg : string)
| AttributeError
| TypeError
| RecursionError
| ClientError
| OSError.

Inductive res (A : Type) :=
| Ok (a : A)
| Raise (e : exn).
Arguments Ok {A} a.
Arguments Raise {A} e.

(** ** The world outside the handler *)

(** One message handed to SES [send_email]. *)
Record mail := Mail {
  Source : string;
  ToAddresses : list value;
  Subject : string;
  Html : string;
  Text : string
}.

(** The world a request runs in.
    - [table]: the DynamoDB table [USER_TABLE], whose key is the [email]
      attribute;
    - [outbox]: the messages SES has accepted, oldest first;
    - [files]: the files [open] can read, by path;
    - [fault n]: whether the n-th call to DynamoDB or SES raises, and
      [calls] the number of calls made so far;
    - [clock n]: the n-th reading of [datetime.datetime.now().isoformat()],
      and [ticks] the readings taken so far;
    - [entropy n]: the n-th byte [os.urandom] hands out, and [drawn] the
      bytes taken so far. *)
Record world := World {
  table : gmap string (gmap string value);
  outbox : list mail;
  files : gmap string string;
  fault : nat -> bool;
  calls : nat;
  clock : nat -> string;
  ticks : nat;
  entropy : nat -> byte;
  drawn : nat
}.

Definition set_table (t : gmap string (gmap string value)) (w : world) : world :=
  World t (outbox w) (files w) (fault w) (calls w) (clock w) (ticks w)
        (entropy w) (drawn w).

Definition set_outbox (o : list mail) (w : world) : world :=
  World (table w) o (files w) (fault w) (calls w) (clock w) (ticks w)
        (entropy w) (drawn w).

Definition set_calls (n : nat) (w : world) : world :=
  World (table w) (outbox w) (files w) (fault w) n (clock w) (ticks w)
        (entropy w) (drawn w).

Definition set_ticks (n : nat) (w : world) : world :=
  World (table w) (outbox w) (files w) (fault w) (calls w) (clock w) n
        (entropy w) (drawn w).

Definition set_drawn (n : nat) (w : world) : world :=
  World (table w) (outbox w) (files w) (fault w) (calls w) (clock w) (ticks w)
        (entropy w) n.

(** ** The monad of handler code: state that survives a raise *)

Definition M (A : Type) : Type := world -> res A * world.

Definition ret {A} (a : A) : M A := fun w => (Ok a, w).

Definition bind {A B} (m : M A) (k : A -> M B) : M B :=
  fun w =>
    match m w with
    | (Ok a, w') => k a w'
    | (Raise e, w') => (Raise e, w')
    end.

Definition raise {A} (e : exn) : M A := fun w => (Raise e, w).

(** [try: m  except Exception as e: h e] *)
Definition try_except {A} (m : M A) (h : exn -> M A) : M A :=
  fun w =>
    match m w with
    | (Ok a, w') => (Ok a, w')
    | (Raise e, w') => h e w'
    end.

(** Lift a pure result. *)
Definition lift {A} (r : res A) : M A := fun w => (r, w).

Declare Scope py_scope.
Delimit Scope py_scope with py.
Notation "x <- m ;; k" := (bind m (fun x => k))
  (at level 100, m at next level, right associativity) : py_scope.
Notation "m ;;; k" := (bind m (fun _ => k))
  (at level 100, right associativity) : py_scope.
Local Open Scope py_scope.

(** ** Pure helpers from the Python runtime *)

(** One hexadecimal digit of [bytes.hex()], lower case. *)
Definition hex_digit (n : N) : ascii :=
  if (n <? 10)%N then ascii_of_N (48 + n) else ascii_of_N (87 + n).

(** [bs.hex()]: two digits for each byte, no separator. *)
Fixpoint hex (bs : list byte) : string :=
  match bs with
  | [] => EmptyString
  | b :: bs' =>
      String (hex_digit (Byte.to_N b / 16))
        (String (hex_digit (Byte.to_N b mod 16)) (hex bs'))
  end.

(** [s.replace(old, new)] for a pattern [old] that is not empty (the
    handler only replaces the two placeholders): every occurrence of
    [old], found from the left and not overlapping, becomes [new].
    [skip] counts the characters of a match still to be dropped. *)
Fixpoint replace_from (old new : string) (skip : nat) (s : string) : string :=
  match s with
  | EmptyString => EmptyString
  | String c s' =>
      match skip with
      | S k => replace_from old new k s'
      | O =>
          if String.prefix old s
          then new ++ replace_from old new (Nat.pred (String.length old)) s'
          else String c (replace_from old new O s')
      end
  end.

Definition replace (old new s : string) : string := replace_from old new O s.

Definition dquote : string := String (ascii_of_nat 34) EmptyString.

(** [json.dumps({"message": msg})] for a message of printable ASCII with
    no quote and no backslash, as every message of the handler is: the
    default separators put a space after the colon. *)
Definition json_dumps_message (msg : string) : string :=
  "{" ++ dquote ++ "message" ++ dquote ++ ": " ++ dquote ++ msg ++ dquote ++ "}".

(** ** Responses *)

Record response := Response {
  statusCode : Z;
  headers : list (string * value);
  body : string
}.

(** The module-level [headers] dict. *)
Definition cors_headers : list (string * value) :=
  [("Access-Control-Allow-Origin", VStr "*");
   ("Access-Control-Allow-Credentials", VBool true)].

(** [{"statusCode": code, "headers": headers,
      "body": json.dumps({"message": msg})}] *)
Definition respond (code : Z) (msg : string) : response :=
  Response code cors_headers (json_dumps_message msg).

(** ** Primitive effects *)

(** [v.get(k)]: only a dict has [get]. *)
Definition py_get (v : value) (k : string) : M value :=
  match v with
  | VDict d => ret (dict_get d k)
  | _ => raise AttributeError
  end.

(** [d[k]] on an event. *)
Definition subscript (d : gmap string value) (k : string) : M value :=
  match d !! k with
  | Some v => ret v
  | None => raise KeyError
  end.

(** [datetime.datetime.now().isoformat()] *)
Definition now_isoformat : M string :=
  fun w => (Ok (clock w (ticks w)), set_ticks (S (ticks w)) w).

(** [os.urandom(n)] *)
Definition urandom (n : nat) : M (list byte) :=
  fun w => (Ok (map (fun i => entropy w (drawn w + i)%nat) (seq 0 n)),
            set_drawn (drawn w + n)%nat w).

(** [with open(path) as f: f.read()] *)
Definition read_file (path : string) : M string :=
  fun w =>
    match files w !! path with
    | Some s => (Ok s, w)
    | None => (Raise OSError, w)
    end.

(** A call to a collaborator: the call is counted, and raises when the
    world says this one fails. *)
Definition remote_call : M unit :=
  fun w =>
    let w' := set_calls (S (calls w)) w in
    if fault w (calls w) then (Raise ClientError, w') else (Ok tt, w').

(** [table.get_item(Key={"email": email}).get("Item")]: the item as a
    dict, or [None]. The key attribute of the table is a string: DynamoDB
    rejects a key of another type. *)
Definition table_get_item (email : value) : M value :=
  remote_call ;;;
  match email with
  | VStr e => fun w => (Ok (from_option VDict VNone (table w !! e)), w)
  | _ => raise ClientError
  end.

(** [table.put_item(Item=it)]: the item replaces the one stored under the
    same [email]; an item that is no dict or has no string [email] is
    rejected. A call that raises has written nothing. *)
Definition table_put_item (it : value) : M unit :=
  remote_call ;;;
  match it with
  | VDict d =>
      match d !! "email" with
      | Some (VStr e) => fun w => (Ok tt, set_table (<[e := d]> (table w)) w)
      | _ => raise ClientError
      end
  | _ => raise ClientError
  end.

(** [ses.send_email] with the keyword arguments of [data] *)
Definition ses_send_email (m : mail) : M unit :=
  remote_call ;;;
  fun w => (Ok tt, set_outbox (outbox w ++ [m]) w).

(** [d[k] = v] *)
Definition setitem (d : value) (k : string) (v : value) : M value :=
  match d with
  | VDict m => ret (VDict (<[k := v]> m))
  | _ => raise TypeError
  end.

(** [a or b] and [a and b] on conditions: [b] runs only when [a] does not
    decide. *)
Definition py_or (a : bool) (b : M bool) : M bool :=
  if a then ret true else b.

Definition py_and (a : bool) (b : M bool) : M bool :=
  if a then b else ret false.

(** ** Reasoning about handler code

    [wp m w Q]: running [m] from the world [w] ends, with a value or with
    a raise, in a result and a world that satisfy [Q]. Handler code is a
    total function of the world, so this is a plain property of [m w]. *)

Definition wp {A} (m : M A) (w : world) (Q : res A -> world -> Prop) : Prop :=
  Q (m w).1 (m w).2.

(** Where a run continues after a result: with the value, or with the
    raise handed on. *)
Definition on_ok {A B} (k : A -> world -> Prop)
    (Q : res B -> world -> Prop) (r : res A) (w : world) : Prop :=
  match r with
  | Ok a => k a w
  | Raise e => Q (Raise e) w
  end.

(** The world just after a collaborator was called. *)
Definition called (w : world) : world := set_calls (S (calls w)) w.

(** A world in which no collaborator ever fails. *)
Definition faultless (w : world) : Prop := forall n, fault w n = false.

(** The templates the handler reads are in place. *)
Definition templates_present (w : world) : Prop :=
  is_Some (files w !! "templates/verify.html") /\
  is_Some (files w !! "templates/verify.txt") /\
  is_Some (files w !! "templates/verified.html") /\
  is_Some (files w !! "templates/verified.txt").

(** Every item of the table sits under its own [email] attribute, as the
    key schema of the table has it. *)
Definition wf_table (t : gmap string (gmap string value)) : Prop :=
  forall e u, t !! e = Some u -> u !! "email" = Some (VStr e).

(** The event carries a query-parameter map holding [email] and [token]
    (a missing entry reads as [None], as [get] gives it). *)
Definition carries (ev : gmap string value) (email token : value) : Prop :=
  exists q, ev !! "queryStringParameters" = Some (VDict q) /\
            dict_get q "email" = email /\ dict_get q "token" = token.

(** The record stored for [e] does not let [token] through the guard of
    [verify] and [unsubscribe]: there is none, or it is an empty dict, or
    its token is not [token]. *)
Definition rejects (w : world) (e : string) (token : value) : Prop :=
  match table w !! e with
  | None => True
  | Some u => truthy (VDict u) = false \/ py_ne (dict_get u "token") token = true
  end.

(** The item [verify] writes back: [verified] set, [updated_at]
    refreshed, everything else as it was read. *)
Definition verified_item (u : gmap string value) (ts : string) : gmap string value :=
  <["updated_at" := VStr ts]> (<["verified" := VBool true]> u).

(** The item [unsubscribe] writes back. *)
Definition unsubscribed_item (u : gmap string value) (ts : string) : gmap string value :=
  <["updated_at" := VStr ts]> (<["verified" := VBool false]> u).

(** The call went through the token guard and wrote: the event carries
    an email and the token stored for it, neither empty, and the table of
    [w'] is the table of [w] with that record replaced by [f] of it and of
    the first clock reading after [w]. *)
Definition commits (f : gmap string value -> string -> gmap string value)
    (ev : gmap string value) (w w' : world) : Prop :=
  exists e token u,
    carries ev (VStr e) token /\ e <> EmptyString /\ truthy token = true /\
    table w !! e = Some u /\
    py_eq (dict_get u "token") token = true /\
    table w' = <[e := f u (clock w (ticks w))]> (table w).

(** What a call may have done, by the status it answered. [sends]: a
    success appends exactly one message; [late_fault]: a 500 may come
    after the write. *)
Definition outcome (f : gmap string value -> string -> gmap string value)
    (sends late_fault : bool) (ev : gmap string value)
    (w : world) (resp : response) (w' : world) : Prop :=
  (statusCode resp = 200 /\ commits f ev w w' /\
   if sends then exists m, outbox w' = (outbox w ++ [m])%list
   else outbox w' = outbox w) \/
  (statusCode resp = 400 /\ table w' = table w /\ outbox w' = outbox w) \/
  (statusCode resp = 500 /\ outbox w' = outbox w /\
   (table w' = table w \/ (late_fault = true /\ commits f ev w w'))).

(** The token the next [subscribe] draws: [os.urandom(16).hex()] read at
    position [n] of the entropy of [w]. *)
Definition token_at (w : world) (n : nat) : string :=
  hex (map (fun i => entropy w (n + i)%nat) (seq 0 16)).

Definition next_token (w : world) : string := token_at w (drawn w).

(** The item [subscribe] writes. *)
Definition pending_item (email : value) (token created updated : string)
    : gmap string value :=
  <["email" := email]>
    (<["token" := VStr token]>
    (<["verified" := VBool false]>
    (<["created_at" := VStr created]>
    (<["updated_at" := VStr updated]> ∅)))).

(** The email has no active record: none, or one that is empty or whose
    [verified] is not truthy. *)
Definition inactive (w : world) (e : string) : Prop :=
  match table w !! e with
  | None => True
  | Some u => truthy (VDict u) && truthy (dict_get u "verified") = false
  end.

(** ** What a request may do to the world *)

(** The deployment is as it was: the files and the oracles are the same,
    and a request has made at most three collaborator calls, taken at
    most two clock readings and drawn at most sixteen bytes. *)
Definition same_setup (w w' : world) : Prop :=
  files w' = files w /\ fault w' = fault w /\
  clock w' = clock w /\ entropy w' = entropy w /\
  (calls w <= calls w' <= calls w + 3)%nat /\
  (ticks w <= ticks w' <= ticks w + 2)%nat /\
  (drawn w <= drawn w' <= drawn w + 16)%nat.

(** A response in the envelope of the handler, and a world that differs
    from [w] by at most one record written and at most one message
    sent. *)
Definition effect (w : world) (resp : response) (w' : world) : Prop :=
  (exists code msg, resp = respond code msg /\
                    (code = 200 \/ code = 400 \/ code = 405 \/ code = 500)) /\
  same_setup w w' /\
  (outbox w' = outbox w \/ exists m, outbox w' = (outbox w ++ [m])%list) /\
  (table w' = table w \/ exists e u', table w' = <[e := u']> (table w)).

(** A lower-case hexadecimal digit. *)
Definition is_hex_digit (c : ascii) : bool :=
  let n := N_of_ascii c in
  ((48 <=? n) && (n <=? 57) || (97 <=? n) && (n <=? 102))%N.

Fixpoint all_chars (p : ascii -> bool) (s : string) : bool :=
  match s with
  | EmptyString => true
  | String c s' => p c && all_chars p s'
  end.

(** The value of a lower-case hexadecimal digit: what reads a token
    back into its bytes. *)
Definition unhex_digit (c : ascii) : N :=
  let n := N_of_ascii c in
  if (n <? 58)%N then (n - 48)%N else (n - 87)%N.

(** ** Sample data

    A deployment and a few requests to run the handler on. *)

Definition alice : string := "a@x.com".

(** The request body [{"email": "a@x.com"}] as API Gateway passes it. *)
Definition alice_body : string :=
  "{" ++ dquote ++ "email" ++ dquote ++ ": " ++ dquote ++ alice ++ dquote ++ "}".

(** [json.loads] on the one body above; any other text is refused. *)
Definition demo_loads (s : string) : res value :=
  if bool_decide (s = alice_body)
  then Ok (VDict (<["email" := VStr alice]> ∅))
  else Raise JSONDecodeError.

Definition demo_str (v : value) : string := "<object>".
Definition demo_domain : string := "https://blog.example".
Definition demo_from : string := "news@blog.example".

Definition verify_html : string :=
  "<a href='{{verify_url}}'>verify</a>"
  ++ " <a href='{{unsubscribe_url}}'>leave</a>".

Definition verify_txt : string := "Verify: {{verify_url}}".

Definition demo_files : gmap string string :=
  <["templates/verify.html" := verify_html]>
  (<["templates/verify.txt" := verify_txt]>
  (<["templates/verified.html" := "<a href='{{unsubscribe_url}}'>leave</a>"]>
  (<["templates/verified.txt" := "Leave: {{unsubscribe_url}}"]> ∅))).

Definition demo_clock (n : nat) : string := "2024-01-01T00:00:" ++ pretty n.

Definition demo_entropy (n : nat) : byte :=
  default x00 (Byte.of_N (N.of_nat (17 * n) mod 256)).

(** The first token [demo_entropy] yields. *)
Definition alice_token : string := "00112233445566778899aabbccddeeff".

Definition demo_world (t : gmap string (gmap string value))
    (fault : nat -> bool) : world :=
  World t [] demo_files fault 0 demo_clock 0 demo_entropy 0.

Definition no_fault (n : nat) : bool := false.

(** The third call to a collaborator fails: in [verify], the sender. *)
Definition third_call_fails (n : nat) : bool := Nat.eqb n 2.

Definition alice_record (verified : bool) : gmap string value :=
  <["verified" := VBool verified]>
    (pending_item (VStr alice) alice_token "2023-12-31T23:59:58"
       "2023-12-31T23:59:59").

Definition world_empty : world := demo_world ∅ no_fault.

Definition world_with (verified : bool) (fault : nat -> bool) : world :=
  demo_world (<[alice := alice_record verified]> ∅) fault.

Definition query (email token : string) : value :=
  VDict (<["email" := VStr email]> (<["token" := VStr token]> ∅)).

Definition request (method path : string) : gmap string value :=
  <["httpMethod" := VStr method]> (<["path" := VStr path]> ∅).

Definition ev_subscribe : gmap string value :=
  <["body" := VStr alice_body]> (request "POST" "/subscribe").

Definition ev_verify (token : string) : gmap string value :=
  <["queryStringParameters" := query alice token]> (request "GET" "/verify").

Definition ev_unsubscribe (token : string) : gmap string value :=
  <["queryStringParameters" := query alice token]>
    (request "GET" "/unsubscribe").

(** A request without any query string: API Gateway passes [None]. *)
Definition ev_bare : gmap string value :=
  <["queryStringParameters" := VNone]> (request "GET" "/verify").

Definition ev_delete : gmap string value := request "DELETE" "/subscribe".

(** A subscription, its body already decoded, for a string that is no
    email address. *)
Definition ev_subscribe_odd : gmap string value :=
  <["body" := VDict (<["email" := VStr "not an address"]> ∅)]>
    (request "POST" "/subscribe").

(** Every call to a collaborator fails; only the second one does. *)
Definition all_calls_fail (n : nat) : bool := true.
Definition second_call_fails (n : nat) : bool := Nat.eqb n 1.

(** A subscription whose decoded body has no email, and one without any
    body. *)
Definition ev_subscribe_blank : gmap string value :=
  <["body" := VDict ∅]> (request "POST" "/subscribe").

Definition ev_subscribe_no_body : gmap string value :=
  request "POST" "/subscribe".



(** ** The handler *)

Section Handler.

(** [json.loads] of the Python runtime, with the exception it raises on a
    text it does not accept. *)
Variable json_loads : string -> res value.

(** [str(v)] of a value that is not a str, as an f-string formats it. *)
Variable str_other : value -> string.

(** The environment variables [DOMAIN] and [FROM_EMAIL]. *)
Variable DOMAIN : string.
Variable FROM_EMAIL : string.

(** [f"{v}"] *)
Definition fstr (v : value) : string :=
  match v with
  | VStr s => s
  | _ => str_other v
  end.

Definition load_body (ev : gmap string value) : M value :=
  try_except
    (body <- subscript ev "body" ;;
     match body with
     | VStr s => lift (json_loads s)
     | _ => ret body
     end)
    (fun e =>
       match e with
       | KeyError | JSONDecodeError => raise (ValueError "Invalid body")
       | _ => raise e
       end).

Definition get_user (email : value) : M value :=
  try_except (table_get_item email) (fun e => raise e).

(** The response of [put_item] carries no ["Item"]: the result is [None]. *)
Definition add_user (it : value) : M value :=
  try_except (table_put_item it ;;; ret VNone) (fun e => raise e).

Definition send_email (email : value) (subject html text : string) : M unit :=
  try_except
    (ses_send_email (Mail FROM_EMAIL [email] subject html text))
    (fun e => raise e).

Definition internal_error (e : exn) : M response :=
  ret (respond 500 "Internal server error").

Definition subscribe (ev : gmap string value) : M response :=
  try_except
    (body <- load_body ev ;;
     email <- py_get body "email" ;;
     if negb (truthy email) then ret (respond 400 "Email is required") else
     user <- get_user email ;;
     active <- py_and (truthy user)
                 (v <- py_get user "verified" ;; ret (truthy v)) ;;
     if active then ret (respond 400 "User already subscribed") else
     rnd <- urandom 16 ;;
     created <- now_isoformat ;;
     updated <- now_isoformat ;;
     let token := hex rnd in
     let it := VDict (<["email" := email]>
                     (<["token" := VStr token]>
                     (<["verified" := VBool false]>
                     (<["created_at" := VStr created]>
                     (<["updated_at" := VStr updated]> ∅))))) in
     add_user it ;;;
     let verify_url :=
       DOMAIN ++ "/verify?email=" ++ fstr email ++ "&token=" ++ token in
     let unsubscribe_url :=
       DOMAIN ++ "/unsubscribe?email=" ++ fstr email ++ "&token=" ++ token in
     html <- read_file "templates/verify.html" ;;
     let html := replace "{{unsubscribe_url}}" unsubscribe_url
                   (replace "{{verify_url}}" verify_url html) in
     text <- read_file "templates/verify.txt" ;;
     let text := replace "{{verify_url}}" verify_url text in
     send_email email "Verify your email" html text ;;;
     ret (respond 200 "User subscribed successfully"))
    internal_error.

Definition unsubscribe (ev : gmap string value) : M response :=
  try_except
    (query_params <- subscript ev "queryStringParameters" ;;
     email <- py_get query_params "email" ;;
     token <- py_get query_params "token" ;;
     if negb (truthy email) || negb (truthy token)
     then ret (respond 400 "Email and token are required") else
     user <- get_user email ;;
     denied <- py_or (negb (truthy user))
                 (t <- py_get user "token" ;; ret (py_ne t token)) ;;
     if denied then ret (respond 400 "Failed to unsubscribe") else
     user <- setitem user "verified" (VBool false) ;;
     updated <- now_isoformat ;;
     user <- setitem user "updated_at" (VStr updated) ;;
     table_put_item user ;;;
     ret (respond 200 "You are successfully unsubscribed"))
    internal_error.

Definition verify (ev : gmap string value) : M response :=
  try_except
    (query_params <- subscript ev "queryStringParameters" ;;
     email <- py_get query_params "email" ;;
     token <- py_get query_params "token" ;;
     if negb (truthy email) || negb (truthy token)
     then ret (respond 400 "Email and token are required") else
     user <- get_user email ;;
     denied <- py_or (negb (truthy user))
                 (t <- py_get user "token" ;; ret (py_ne t token)) ;;
     if denied then ret (respond 400 "User verification failed") else
     user <- setitem user "verified" (VBool true) ;;
     updated <- now_isoformat ;;
     user <- setitem user "updated_at" (VStr updated) ;;
     table_put_item user ;;;
     html <- read_file "templates/verified.html" ;;
     let unsubscribe_url :=
       DOMAIN ++ "/unsubscribe?email=" ++ fstr email
              ++ "&token=" ++ fstr token in
     let html := replace "{{unsubscribe_url}}" unsubscribe_url html in
     text <- read_file "templates/verified.txt" ;;
     let text := replace "{{unsubscribe_url}}" unsubscribe_url text in
     send_email email "Email verified" html text ;;;
     ret (respond 200 "User verified successfully"))
    internal_error.

Definition lambda_handler (ev : gmap string value) : M response :=
  try_except
    (http_method <- subscript ev "httpMethod" ;;
     path <- subscript ev "path" ;;
     if py_eq http_method (VStr "POST") && py_eq path (VStr "/subscribe")
     then subscribe ev
     else if py_eq http_method (VStr "GET") && py_eq path (VStr "/unsubscribe")
     then unsubscribe ev
     else if py_eq http_method (VStr "GET") && py_eq path (VStr "/verify")
     then verify ev
     else ret (respond 405 "Method not allowed"))
    internal_error.

(** The body of the event decodes to a dict whose [email] is [email]. *)
Definition requests (ev : gmap string value) (email : value) : Prop :=
  exists b, (forall w, load_body ev w = (Ok (VDict b), w)) /\
            dict_get b "email" = email.

(** The message [subscribe] sends, from the two templates. *)
Definition verification_mail (email : value) (token html text : string) : mail :=
  let verify_url :=
    DOMAIN ++ "/verify?email=" ++ fstr email ++ "&token=" ++ token in
  let unsubscribe_url :=
    DOMAIN ++ "/unsubscribe?email=" ++ fstr email ++ "&token=" ++ token in
  Mail FROM_EMAIL [email] "Verify your email"
       (replace "{{unsubscribe_url}}" unsubscribe_url
          (replace "{{verify_url}}" verify_url html))
       (replace "{{verify_url}}" verify_url text).

(** The message [verify] sends. *)
Definition confirmation_mail (email token : value) (html text : string) : mail :=
  let unsubscribe_url :=
    DOMAIN ++ "/unsubscribe?email=" ++ fstr email ++ "&token=" ++ fstr token in
  Mail FROM_EMAIL [email] "Email verified"
       (replace "{{unsubscribe_url}}" unsubscribe_url html)
       (replace "{{unsubscribe_url}}" unsubscribe_url text).

(** What [subscribe] has done, by its answer: nothing at all; one lookup
    that found an active record; the whole subscription; or a fault,
    before or after the record was written. *)
Definition subscribe_result (ev : gmap string value)
    (w : world) (resp : response) (w' : world) : Prop :=
  (resp = respond 400 "Email is required" /\ w' = w) \/
  (resp = respond 400 "User already subscribed" /\ w' = called w /\
   exists e u, requests ev (VStr e) /\ table w !! e = Some u /\
               truthy (dict_get u "verified") = true) \/
  (resp = respond 200 "User subscribed successfully" /\
   exists e html text,
     requests ev (VStr e) /\ e <> EmptyString /\ inactive w e /\
     files w !! "templates/verify.html" = Some html /\
     files w !! "templates/verify.txt" = Some text /\
     w' = World (<[e := pending_item (VStr e) (next_token w)
                          (clock w (ticks w)) (clock w (S (ticks w)))]>
                   (table w))
                (outbox w ++ [verification_mail (VStr e) (next_token w)
                                html text])
                (files w) (fault w) (S (S (S (calls w))))
                (clock w) (S (S (ticks w))) (entropy w) (drawn w + 16)) \/
  (resp = respond 500 "Internal server error" /\ outbox w' = outbox w /\
   same_setup w w' /\
   (table w' = table w \/
    exists e, requests ev (VStr e) /\ e <> EmptyString /\ inactive w e /\
              table w' = <[e := pending_item (VStr e) (next_token w)
                                   (clock w (ticks w))
                                   (clock w (S (ticks w)))]> (table w))).

(** What [verify] has done, by its answer. *)
Definition verify_result (ev : gmap string value)
    (w : world) (resp : response) (w' : world) : Prop :=
  (resp = respond 400 "Email and token are required" /\ w' = w) \/
  (resp = respond 400 "User verification failed" /\ w' = called w /\
   exists e token, carries ev (VStr e) token /\ rejects w e token) \/
  (resp = respond 200 "User verified successfully" /\
   exists e token u html text,
     carries ev (VStr e) token /\ e <> EmptyString /\ truthy token = true /\
     table w !! e = Some u /\ py_eq (dict_get u "token") token = true /\
     files w !! "templates/verified.html" = Some html /\
     files w !! "templates/verified.txt" = Some text /\
     w' = World (<[e := verified_item u (clock w (ticks w))]> (table w))
                (outbox w ++ [confirmation_mail (VStr e) token html text])
                (files w) (fault w) (S (S (S (calls w))))
                (clock w) (S (ticks w)) (entropy w) (drawn w)) \/
  (resp = respond 500 "Internal server error" /\ outbox w' = outbox w /\
   same_setup w w' /\
   (table w' = table w \/
    exists e token u,
      carries ev (VStr e) token /\ truthy token = true /\
      table w !! e = Some u /\
      py_eq (dict_get u "token") token = true /\
      table w' = <[e := verified_item u (clock w (ticks w))]> (table w))).

(** What [unsubscribe] has done, by its answer. *)
Definition unsubscribe_result (ev : gmap string value)
    (w : world) (resp : response) (w' : world) : Prop :=
  (resp = respond 400 "Email and token are required" /\ w' = w) \/
  (resp = respond 400 "Failed to unsubscribe" /\ w' = called w /\
   exists e token, carries ev (VStr e) token /\ rejects w e token) \/
  (resp = respond 200 "You are successfully unsubscribed" /\
   exists e token u,
     carries ev (VStr e) token /\ e <> EmptyString /\ truthy token = true /\
     table w !! e = Some u /\ py_eq (dict_get u "token") token = true /\
     w' = World (<[e := unsubscribed_item u (clock w (ticks w))]> (table w))
                (outbox w) (files w) (fault w) (S (S (calls w)))
                (clock w) (S (ticks w)) (entropy w) (drawn w)) \/
  (resp = respond 500 "Internal server error" /\ outbox w' = outbox w /\
   same_setup w w' /\ table w' = table w).

(** The request names the email [e]: in its body, or in its query
    parameters. *)
Definition names (ev : gmap string value) (e : string) : Prop :=
  requests ev (VStr e) \/ exists token, carries ev (VStr e) token.

(** The one write a request may have made to the table: a record of the
    email the request names, and an active one only as [verify] writes
    it, for the token stored. *)
Definition wrote (ev : gmap string value) (w w' : world) : Prop :=
  table w' = table w \/
  exists e u',
    table w' = <[e := u']> (table w) /\ names ev e /\
    (truthy (dict_get u' "verified") = true ->
     exists token u,
       carries ev (VStr e) token /\ truthy token = true /\
       table w !! e = Some u /\ py_eq (dict_get u "token") token = true /\
       u' = verified_item u (clock w (ticks w))).

(** *** Rules of [wp] *)

Lemma wp_run {A} (m : M A) w Q r w' : wp m w Q -> m w = (r, w') -> Q r w'.
Proof. unfold wp. intros H E. by rewrite E in H. Qed.

Lemma wp_eq {A} (m : M A) w r w' :
  wp m w (fun r0 w0 => r0 = r /\ w0 = w') -> m w = (r, w').
Proof. unfold wp. destruct (m w) as [r0 w0]. simpl. by intros [-> ->]. Qed.

Lemma wp_mono {A} (m : M A) w (Q Q' : res A -> world -> Prop) :
  wp m w Q -> (forall r w', Q r w' -> Q' r w') -> wp m w Q'.
Proof. unfold wp. auto. Qed.

Lemma wp_ret {A} (a : A) w Q : Q (Ok a) w -> wp (ret a) w Q.
Proof. done. Qed.

Lemma wp_raise {A} e w (Q : res A -> world -> Prop) :
  Q (Raise e) w -> wp (raise e) w Q.
Proof. done. Qed.

Lemma wp_lift {A} (r : res A) w Q : Q r w -> wp (lift r) w Q.
Proof. done. Qed.

Lemma wp_bind {A B} (m : M A) (k : A -> M B) w Q :
  wp m w (on_ok (fun a w' => wp (k a) w' Q) Q) -> wp (bind m k) w Q.
Proof. unfold wp, bind, on_ok. by destruct (m w) as [[a|e] w']. Qed.

Lemma wp_try {A} (m : M A) (h : exn -> M A) w Q :
  wp m w (fun r w' => match r with
                      | Ok a => Q (Ok a) w'
                      | Raise e => wp (h e) w' Q
                      end) ->
  wp (try_except m h) w Q.
Proof. unfold wp, try_except. by destruct (m w) as [[a|e] w']. Qed.

Lemma wp_subscript d k w Q :
  match d !! k with
  | Some v => Q (Ok v) w
  | None => Q (Raise KeyError) w
  end ->
  wp (subscript d k) w Q.
Proof. unfold wp, subscript. by destruct (d !! k). Qed.

Lemma wp_py_get v k w Q :
  match v with
  | VDict d => Q (Ok (dict_get d k)) w
  | _ => Q (Raise AttributeError) w
  end ->
  wp (py_get v k) w Q.
Proof. unfold wp, py_get. by destruct v. Qed.

Lemma wp_setitem d k v w Q :
  match d with
  | VDict m => Q (Ok (VDict (<[k := v]> m))) w
  | _ => Q (Raise TypeError) w
  end ->
  wp (setitem d k v) w Q.
Proof. unfold wp, setitem. by destruct d. Qed.

Lemma wp_now w Q :
  Q (Ok (clock w (ticks w))) (set_ticks (S (ticks w)) w) ->
  wp now_isoformat w Q.
Proof. done. Qed.

Lemma wp_urandom n w Q :
  Q (Ok (map (fun i => entropy w (drawn w + i)%nat) (seq 0 n)))
    (set_drawn (drawn w + n)%nat w) ->
  wp (urandom n) w Q.
Proof. done. Qed.

Lemma wp_read_file path w Q :
  match files w !! path with
  | Some s => Q (Ok s) w
  | None => Q (Raise OSError) w
  end ->
  wp (read_file path) w Q.
Proof. unfold wp, read_file. by destruct (files w !! path). Qed.

Lemma wp_remote_call w Q :
  (if fault w (calls w)
   then Q (Raise ClientError) (called w)
   else Q (Ok tt) (called w)) ->
  wp remote_call w Q.
Proof. unfold wp, remote_call, called. by destruct (fault w (calls w)). Qed.

Lemma wp_get_user email w Q :
  (if fault w (calls w)
   then Q (Raise ClientError) (called w)
   else match email with
        | VStr e => Q (Ok (from_option VDict VNone (table w !! e))) (called w)
        | _ => Q (Raise ClientError) (called w)
        end) ->
  wp (get_user email) w Q.
Proof.
  unfold wp, get_user, try_except, table_get_item, bind, remote_call, called.
  destruct (fault w (calls w)); [done|]. by destruct email.
Qed.

Lemma wp_put_item it w Q :
  (if fault w (calls w)
   then Q (Raise ClientError) (called w)
   else match it with
        | VDict d =>
            match d !! "email" with
            | Some (VStr e) =>
                Q (Ok tt) (set_table (<[e := d]> (table w)) (called w))
            | _ => Q (Raise ClientError) (called w)
            end
        | _ => Q (Raise ClientError) (called w)
        end) ->
  wp (table_put_item it) w Q.
Proof.
  unfold wp, table_put_item, bind, remote_call, called.
  destruct (fault w (calls w)); [done|]. simpl.
  destruct it as [| | | | |d]; try done.
  by destruct (d !! "email") as [[]|].
Qed.

Lemma wp_add_user it w Q :
  wp (table_put_item it) w (on_ok (fun _ w' => Q (Ok VNone) w') Q) ->
  wp (add_user it) w Q.
Proof.
  unfold wp, add_user, try_except, bind, on_ok.
  by destruct (table_put_item it w) as [[[]|e] w'].
Qed.

Lemma wp_send_email email subject html text w Q :
  (if fault w (calls w)
   then Q (Raise ClientError) (called w)
   else Q (Ok tt)
          (set_outbox
             (outbox w ++ [Mail FROM_EMAIL [email] subject html text])
             (called w))) ->
  wp (send_email email subject html text) w Q.
Proof.
  unfold wp, send_email, try_except, ses_send_email, bind, remote_call, called.
  by destruct (fault w (calls w)).
Qed.

Lemma wp_py_or (a : bool) (b : M bool) w Q :
  (if a then Q (Ok true) w else wp b w Q) -> wp (py_or a b) w Q.
Proof. by destruct a. Qed.

Lemma wp_py_and (a : bool) (b : M bool) w Q :
  (if a then wp b w Q else Q (Ok false) w) -> wp (py_and a b) w Q.
Proof. by destruct a. Qed.

Lemma wp_internal_error e w Q :
  Q (Ok (respond 500 "Internal server error")) w -> wp (internal_error e) w Q.
Proof. done. Qed.

Ltac wp_step :=
  lazymatch goal with
  | |- wp (bind _ _) _ _ => apply wp_bind
  | |- wp (ret _) _ _ => apply wp_ret
  | |- wp (raise _) _ _ => apply wp_raise
  | |- wp (lift _) _ _ => apply wp_lift
  | |- wp (internal_error _) _ _ => apply wp_internal_error
  | |- wp (subscript _ _) _ _ => apply wp_subscript
  | |- wp (py_get _ _) _ _ => apply wp_py_get
  | |- wp (setitem _ _ _) _ _ => apply wp_setitem
  | |- wp now_isoformat _ _ => apply wp_now
  | |- wp (urandom _) _ _ => apply wp_urandom
  | |- wp (read_file _) _ _ => apply wp_read_file
  | |- wp (get_user _) _ _ => apply wp_get_user
  | |- wp (add_user _) _ _ => apply wp_add_user
  | |- wp (table_put_item _) _ _ => apply wp_put_item
  | |- wp (send_email _ _ _ _) _ _ => apply wp_send_email
  | |- wp (py_or _ _) _ _ => apply wp_py_or
  | |- wp (py_and _ _) _ _ => apply wp_py_and
  | |- wp (try_except _ _) _ _ => apply wp_try
  | |- on_ok _ _ _ _ => progress cbn beta iota delta [on_ok]
  end.

Ltac wp_steps := repeat wp_step.

(** *** Facts about values *)

Lemma py_eq_str v s : py_eq v (VStr s) = true <-> v = VStr s.
Proof.
  destruct v; simpl; try (split; [done | congruence]).
  rewrite bool_decide_eq_true. split; congruence.
Qed.

Lemma py_eq_str_refl s : py_eq (VStr s) (VStr s) = true.
Proof. by apply py_eq_str. Qed.

Lemma truthy_str s : truthy (VStr s) = true <-> s <> EmptyString.
Proof.
  simpl. rewrite negb_true_iff, bool_decide_eq_false. done.
Qed.

Lemma hex_length bs : String.length (hex bs) = (2 * length bs)%nat.
Proof. induction bs as [|b bs IH]; simpl; [done | lia]. Qed.

(** *** The handlers always answer *)

Lemma try_internal_answers (m : M response) w :
  exists r, (try_except m internal_error w).1 = Ok r.
Proof.
  unfold try_except. destruct (m w) as [[a|e] w']; simpl; eauto.
Qed.

Lemma try_except_ok {A} (m : M A) h w a :
  (m w).1 = Ok a -> try_except m h w = m w.
Proof.
  unfold try_except. destruct (m w) as [[a'|e] w']; simpl; [done | congruence].
Qed.

Lemma subscribe_answers ev w : exists r, (subscribe ev w).1 = Ok r.
Proof. apply try_internal_answers. Qed.

Lemma unsubscribe_answers ev w : exists r, (unsubscribe ev w).1 = Ok r.
Proof. apply try_internal_answers. Qed.

Lemma verify_answers ev w : exists r, (verify ev w).1 = Ok r.
Proof. apply try_internal_answers. Qed.

Lemma lambda_handler_answers ev w : exists r, (lambda_handler ev w).1 = Ok r.
Proof. apply try_internal_answers. Qed.

(** *** Dispatch *)

(** C7. When the event carries a method and a path, [lambda_handler]
    hands POST /subscribe to [subscribe], GET /verify to [verify] and
    GET /unsubscribe to [unsubscribe], and answers every other pair of
    method and path with status 405, the CORS headers and, as body, the
    JSON object whose one member [message] is "Method not allowed" (in
    the text of [json.dumps], a space follows the colon), touching
    nothing. *)
Theorem lambda_handler_dispatch ev w m p :
  ev !! "httpMethod" = Some m ->
  ev !! "path" = Some p ->
  (m = VStr "POST" -> p = VStr "/subscribe" ->
   lambda_handler ev w = subscribe ev w) /\
  (m = VStr "GET" -> p = VStr "/verify" ->
   lambda_handler ev w = verify ev w) /\
  (m = VStr "GET" -> p = VStr "/unsubscribe" ->
   lambda_handler ev w = unsubscribe ev w) /\
  ((m, p) ∉ [(VStr "POST", VStr "/subscribe"); (VStr "GET", VStr "/verify");
             (VStr "GET", VStr "/unsubscribe")] ->
   lambda_handler ev w = (Ok (respond 405 "Method not allowed"), w) /\
   statusCode (respond 405 "Method not allowed") = 405 /\
   body (respond 405 "Method not allowed")
   = json_dumps_message "Method not allowed" /\
   body (respond 405 "Method not allowed")
   = "{" ++ dquote ++ "message" ++ dquote ++ ": "
         ++ dquote ++ "Method not allowed" ++ dquote ++ "}" /\
   String.length (body (respond 405 "Method not allowed")) = 33%nat /\
   headers (respond 405 "Method not allowed")
   = [("Access-Control-Allow-Origin", VStr "*");
      ("Access-Control-Allow-Credentials", VBool true)]).
Proof.
  intros Hm Hp.
  unfold lambda_handler.
  split; [|split; [|split]].
  - intros -> ->. unfold try_except, bind, subscript. rewrite Hm, Hp. simpl.
    destruct (subscribe_answers ev w) as [r Hr].
    destruct (subscribe ev w) as [[a|e] w']; simpl in *; congruence.
  - intros -> ->. unfold try_except, bind, subscript. rewrite Hm, Hp. simpl.
    destruct (verify_answers ev w) as [r Hr].
    destruct (verify ev w) as [[a|e] w']; simpl in *; congruence.
  - intros -> ->. unfold try_except, bind, subscript. rewrite Hm, Hp. simpl.
    destruct (unsubscribe_answers ev w) as [r Hr].
    destruct (unsubscribe ev w) as [[a|e] w']; simpl in *; congruence.
  - intros H. split; [|by repeat split]. apply wp_eq. wp_steps. rewrite Hm.
    wp_steps.
    rewrite Hp. wp_steps.
    destruct (py_eq m (VStr "POST") && py_eq p (VStr "/subscribe")) eqn:E1.
    { apply andb_true_iff in E1 as [A B]. apply py_eq_str in A, B. subst.
      exfalso. apply H. apply list_elem_of_here. }
    destruct (py_eq m (VStr "GET") && py_eq p (VStr "/unsubscribe")) eqn:E2.
    { apply andb_true_iff in E2 as [A B]. apply py_eq_str in A, B. subst.
      exfalso. apply H. do 2 apply list_elem_of_further. apply list_elem_of_here. }
    destruct (py_eq m (VStr "GET") && py_eq p (VStr "/verify")) eqn:E3.
    { apply andb_true_iff in E3 as [A B]. apply py_eq_str in A, B. subst.
      exfalso. apply H. apply list_elem_of_further, list_elem_of_here. }
    by wp_steps.
Qed.

(** X9. An event that lacks the method or the path ends in the outer
    [except] block: the answer is 500 "Internal server error", not 405,
    and nothing is touched. *)
Lemma lambda_handler_without_route ev w :
  ev !! "httpMethod" = None \/ ev !! "path" = None ->
  lambda_handler ev w = (Ok (respond 500 "Internal server error"), w).
Proof.
  intros H. apply wp_eq. unfold lambda_handler. wp_steps.
  destruct (ev !! "httpMethod") as [m|] eqn:Hm; [|by wp_steps].
  wp_steps. destruct H as [H | ->]; [discriminate H|]. by wp_steps.
Qed.

(** *** Requests without parameters *)

(** C8. When the event has no query-parameter map at all (the entry is
    absent, or is [None]), [verify] and [unsubscribe] answer with status
    500 and the message "Internal server error" and touch nothing; a map
    that lacks [email] or [token] gets status 400 and the message "Email
    and token are required" instead: another status, another body. *)
Theorem absent_query_map_is_internal_error ev w :
  ev !! "queryStringParameters" = None \/
  ev !! "queryStringParameters" = Some VNone ->
  (verify ev w = (Ok (respond 500 "Internal server error"), w) /\
   unsubscribe ev w = (Ok (respond 500 "Internal server error"), w)) /\
  (forall ev' d,
     ev' !! "queryStringParameters" = Some (VDict d) ->
     d !! "email" = None \/ d !! "token" = None ->
     verify ev' w = (Ok (respond 400 "Email and token are required"), w) /\
     unsubscribe ev' w
     = (Ok (respond 400 "Email and token are required"), w)) /\
  (exists r, (verify ev w).1 = Ok r /\ (unsubscribe ev w).1 = Ok r /\
             statusCode r = 500 /\
             body r = "{" ++ dquote ++ "message" ++ dquote ++ ": "
                          ++ dquote ++ "Internal server error" ++ dquote
                          ++ "}") /\
  (forall ev' d,
     ev' !! "queryStringParameters" = Some (VDict d) ->
     d !! "email" = None \/ d !! "token" = None ->
     exists r', (verify ev' w).1 = Ok r' /\ (unsubscribe ev' w).1 = Ok r' /\
                statusCode r' = 400 /\
                body r' = "{" ++ dquote ++ "message" ++ dquote ++ ": "
                              ++ dquote ++ "Email and token are required"
                              ++ dquote ++ "}" /\
                forall r, (verify ev w).1 = Ok r ->
                          statusCode r <> statusCode r' /\ body r <> body r').
Proof.
  intros H.
  assert (H500 : verify ev w = (Ok (respond 500 "Internal server error"), w) /\
                 unsubscribe ev w
                 = (Ok (respond 500 "Internal server error"), w)).
  { split; apply wp_eq; [unfold verify | unfold unsubscribe]; wp_steps;
      destruct H as [-> | ->]; by wp_steps. }
  assert (H400 : forall ev' d,
     ev' !! "queryStringParameters" = Some (VDict d) ->
     d !! "email" = None \/ d !! "token" = None ->
     verify ev' w = (Ok (respond 400 "Email and token are required"), w) /\
     unsubscribe ev' w
     = (Ok (respond 400 "Email and token are required"), w)).
  { intros ev' d Hq Hd.
    split; apply wp_eq; [unfold verify | unfold unsubscribe]; wp_steps;
      rewrite Hq; wp_steps; unfold dict_get;
      destruct Hd as [-> | ->]; simpl; rewrite ?orb_true_r; by wp_steps. }
  split; [exact H500|]. split; [exact H400|].
  destruct H500 as [Ev Eu]. split.
  - eexists. rewrite Ev, Eu. by repeat split.
  - intros ev' d Hq Hd. destruct (H400 ev' d Hq Hd) as [Ev' Eu'].
    eexists. rewrite Ev', Eu', Ev.
    split; [done|]. split; [done|]. split; [done|]. split; [done|].
    intros r [= <-]. split; intros E; vm_compute in E; discriminate E.
Qed.

(** *** Requests that fail the token guard *)

Lemma verify_rejected ev w e token :
  carries ev (VStr e) token -> e <> EmptyString -> truthy token = true ->
  fault w (calls w) = false -> rejects w e token ->
  verify ev w = (Ok (respond 400 "User verification failed"), called w).
Proof.
  intros (q & Hq & He & Ht) Hne Htr Hf Hrej.
  apply truthy_str in Hne.
  apply wp_eq. unfold verify. wp_steps. rewrite Hq. wp_steps.
  rewrite He, Ht, Hne, Htr. cbn [negb orb]. wp_steps. rewrite Hf.
  unfold rejects in Hrej.
  destruct (table w !! e) as [u|]; cbn [from_option]; wp_steps.
  - destruct Hrej as [-> | Hrej]; cbn [negb]; wp_steps; [done|].
    destruct (truthy (VDict u)); cbn [negb]; wp_steps; [|done].
    rewrite Hrej. by wp_steps.
  - cbn [truthy negb]. by wp_steps.
Qed.

Lemma unsubscribe_rejected ev w e token :
  carries ev (VStr e) token -> e <> EmptyString -> truthy token = true ->
  fault w (calls w) = false -> rejects w e token ->
  unsubscribe ev w = (Ok (respond 400 "Failed to unsubscribe"), called w).
Proof.
  intros (q & Hq & He & Ht) Hne Htr Hf Hrej.
  apply truthy_str in Hne.
  apply wp_eq. unfold unsubscribe. wp_steps. rewrite Hq. wp_steps.
  rewrite He, Ht, Hne, Htr. cbn [negb orb]. wp_steps. rewrite Hf.
  unfold rejects in Hrej.
  destruct (table w !! e) as [u|]; cbn [from_option]; wp_steps.
  - destruct Hrej as [-> | Hrej]; cbn [negb]; wp_steps; [done|].
    destruct (truthy (VDict u)); cbn [negb]; wp_steps; [|done].
    rewrite Hrej. by wp_steps.
  - cbn [truthy negb]. by wp_steps.
Qed.


(** *** Every outcome of verify and unsubscribe *)

Lemma truthy_dict_lookup (u : gmap string value) k v :
  u !! k = Some v -> truthy (VDict u) = true.
Proof.
  intros H. simpl. rewrite negb_true_iff, bool_decide_eq_false.
  intros Hs. apply map_size_empty_iff in Hs. subst. by rewrite lookup_empty in H.
Qed.

Ltac wp_world :=
  cbn [table outbox files fault calls clock ticks entropy drawn
       called set_table set_outbox set_calls set_ticks set_drawn].

Ltac wp_leaf :=
  wp_steps; eexists; (split; [reflexivity|]); unfold outcome; wp_world;
  cbn [statusCode respond].

Ltac wp_unchanged :=
  wp_leaf;
  first [ right; left; by auto | right; right; by auto ].

Lemma verify_outcome ev w :
  wf_table (table w) ->
  wp (verify ev) w
     (fun r w' => exists resp, r = Ok resp /\ outcome verified_item true true ev w resp w').
Proof.
  intros Hwf. unfold verify. wp_steps.
  destruct (ev !! "queryStringParameters") as [qp|] eqn:Hq; [|by wp_unchanged].
  wp_steps. destruct qp as [| | | | |q]; try by wp_unchanged.
  wp_steps.
  destruct (negb (truthy (dict_get q "email")) || negb (truthy (dict_get q "token")))
    eqn:Hreq; [by wp_unchanged|].
  apply orb_false_elim in Hreq as [Hte Htt]. apply negb_false_iff in Hte, Htt.
  wp_steps. destruct (fault w (calls w)); [by wp_unchanged|].
  destruct (dict_get q "email") as [| | |e| |] eqn:He; try by wp_unchanged.
  apply truthy_str in Hte.
  destruct (table w !! e) as [u|] eqn:Hu; cbn [from_option]; wp_steps;
    [|cbn [truthy negb]; by wp_unchanged].
  destruct (truthy (VDict u)); cbn [negb]; [|by wp_unchanged].
  wp_steps. unfold py_ne.
  destruct (py_eq (dict_get u "token") (dict_get q "token")) eqn:Ht;
    cbn [negb]; [|by wp_unchanged].
  wp_steps. wp_world.
  destruct (fault w (S (calls w))); [by wp_unchanged|].
  rewrite !lookup_insert_ne, (Hwf e u Hu) by done.
  assert (Hc : commits verified_item ev w
                 (set_table (<[e := verified_item u (clock w (ticks w))]> (table w))
                            (called (set_ticks (S (ticks w)) (called w)))))
    by (exists e; exists (dict_get q "token"); exists u;
        repeat split; try done; by exists q).
  fold (verified_item u (clock w (ticks w))).
  wp_steps.
  destruct (files _ !! "templates/verified.html");
    [|wp_leaf; right; right; by auto].
  wp_steps.
  destruct (files _ !! "templates/verified.txt");
    [|wp_leaf; right; right; by auto].
  wp_steps. wp_world.
  destruct (fault w (S (S (calls w)))); wp_leaf.
  - right; right. by auto.
  - left. split; [done|]. split; [done|]. by eexists.
Qed.

Lemma unsubscribe_outcome ev w :
  wf_table (table w) ->
  wp (unsubscribe ev) w
     (fun r w' => exists resp,
        r = Ok resp /\ outcome unsubscribed_item false false ev w resp w').
Proof.
  intros Hwf. unfold unsubscribe. wp_steps.
  destruct (ev !! "queryStringParameters") as [qp|] eqn:Hq; [|by wp_unchanged].
  wp_steps. destruct qp as [| | | | |q]; try by wp_unchanged.
  wp_steps.
  destruct (negb (truthy (dict_get q "email")) || negb (truthy (dict_get q "token")))
    eqn:Hreq; [by wp_unchanged|].
  apply orb_false_elim in Hreq as [Hte Htt]. apply negb_false_iff in Hte, Htt.
  wp_steps. destruct (fault w (calls w)); [by wp_unchanged|].
  destruct (dict_get q "email") as [| | |e| |] eqn:He; try by wp_unchanged.
  apply truthy_str in Hte.
  destruct (table w !! e) as [u|] eqn:Hu; cbn [from_option]; wp_steps;
    [|cbn [truthy negb]; by wp_unchanged].
  destruct (truthy (VDict u)); cbn [negb]; [|by wp_unchanged].
  wp_steps. unfold py_ne.
  destruct (py_eq (dict_get u "token") (dict_get q "token")) eqn:Ht;
    cbn [negb]; [|by wp_unchanged].
  wp_steps. wp_world.
  destruct (fault w (S (calls w))); [by wp_unchanged|].
  rewrite !lookup_insert_ne, (Hwf e u Hu) by done.
  fold (unsubscribed_item u (clock w (ticks w))).
  wp_leaf. left. split; [done|]. split; [|done].
  exists e; exists (dict_get q "token"); exists u.
  repeat split; try done. by exists q.
Qed.

Lemma unsubscribe_commits ev w resp w' :
  wf_table (table w) ->
  unsubscribe ev w = (Ok resp, w') ->
  statusCode resp = 200 ->
  commits unsubscribed_item ev w w' /\ outbox w' = outbox w.
Proof.
  intros Hwf Hrun Hs.
  pose proof (wp_run _ _ _ _ _ (unsubscribe_outcome ev w Hwf) Hrun)
    as (r & E & H).
  injection E as <-. unfold outcome in H.
  destruct H as [(_ & Hc & Ho) | [(Hs' & _) | (Hs' & _)]];
    [done | rewrite Hs in Hs'; discriminate Hs' ..].
Qed.

(** C3, as the code has it. [verify] and [unsubscribe] always answer, with
    200, 400 or 500. A 200 has written the new record (and [verify] has
    sent exactly one message); a 400 has changed nothing; an [unsubscribe]
    that answers 500 has changed nothing; a [verify] that answers 500 has
    sent nothing, and has left the table as it was or has already written
    the verified record. *)
Theorem verify_unsubscribe_outcomes ev w :
  wf_table (table w) ->
  (exists resp w',
     verify ev w = (Ok resp, w') /\
     (statusCode resp = 200 \/ statusCode resp = 400 \/ statusCode resp = 500) /\
     (statusCode resp = 200 ->
      commits verified_item ev w w' /\
      exists m, outbox w' = (outbox w ++ [m])%list) /\
     (statusCode resp = 400 -> table w' = table w /\ outbox w' = outbox w) /\
     (statusCode resp = 500 ->
      outbox w' = outbox w /\
      (table w' = table w \/ commits verified_item ev w w'))) /\
  (exists resp w',
     unsubscribe ev w = (Ok resp, w') /\
     (statusCode resp = 200 \/ statusCode resp = 400 \/ statusCode resp = 500) /\
     (statusCode resp = 200 ->
      commits unsubscribed_item ev w w' /\ outbox w' = outbox w) /\
     (statusCode resp <> 200 -> table w' = table w /\ outbox w' = outbox w)).
Proof.
  intros Hwf. split.
  - pose proof (verify_outcome ev w Hwf) as H. unfold wp in H.
    destruct (verify ev w) as [r w']. simpl in H.
    destruct H as (resp & -> & H). exists resp, w'. split; [done|].
    unfold outcome in H.
    destruct H as [(Hs & Hc & Hm) | [(Hs & Ht & Ho) | (Hs & Ho & Ht)]];
      rewrite Hs; repeat split; try done; auto; try lia.
    destruct Ht as [Ht | [_ Ht]]; auto.
  - pose proof (unsubscribe_outcome ev w Hwf) as H. unfold wp in H.
    destruct (unsubscribe ev w) as [r w']. simpl in H.
    destruct H as (resp & -> & H). exists resp, w'. split; [done|].
    unfold outcome in H.
    destruct H as [(Hs & Hc & Hm) | [(Hs & Ht & Ho) | (Hs & Ho & Ht)]];
      rewrite Hs; repeat split; try done; auto; try lia.
    all: by destruct Ht as [Ht | [? _]].
Qed.

(** C9. An [unsubscribe] that answers 200 was given the token stored for
    the email, and has replaced that record by one whose [verified] is
    [False] and whose [updated_at] is the new clock reading; every other
    attribute of the record, [email], [token] and [created_at] among them,
    reads as before, so the stored token still equals the one supplied;
    the records of other emails are as they were. *)
Theorem unsubscribe_frame ev w resp w' :
  wf_table (table w) ->
  unsubscribe ev w = (Ok resp, w') ->
  statusCode resp = 200 ->
  exists e token u u',
    carries ev (VStr e) token /\
    table w !! e = Some u /\
    py_eq (dict_get u "token") token = true /\
    table w' !! e = Some u' /\
    u' !! "verified" = Some (VBool false) /\
    u' !! "updated_at" = Some (VStr (clock w (ticks w))) /\
    (forall k, k <> "verified" -> k <> "updated_at" -> u' !! k = u !! k) /\
    u' !! "email" = u !! "email" /\
    u' !! "token" = u !! "token" /\
    u' !! "created_at" = u !! "created_at" /\
    py_eq (dict_get u' "token") token = true /\
    (forall e', e' <> e -> table w' !! e' = table w !! e').
Proof.
  intros Hwf Hrun Hs.
  destruct (unsubscribe_commits ev w resp w' Hwf Hrun Hs)
    as [(e & token & u & Hc & _ & _ & Hu & Ht & Htab) _].
  exists e, token, u, (unsubscribed_item u (clock w (ticks w))).
  assert (Hk : forall k, k <> "verified" -> k <> "updated_at" ->
                 unsubscribed_item u (clock w (ticks w)) !! k = u !! k).
  { intros k H1 H2. unfold unsubscribed_item.
    by rewrite !lookup_insert_ne. }
  repeat split; try done.
  - rewrite Htab. apply lookup_insert_eq.
  - unfold unsubscribed_item. rewrite lookup_insert_ne by done.
    apply lookup_insert_eq.
  - unfold unsubscribed_item. apply lookup_insert_eq.
  - by apply Hk.
  - by apply Hk.
  - by apply Hk.
  - unfold dict_get. rewrite Hk by done. exact Ht.
  - intros e' Hne. rewrite Htab. by rewrite lookup_insert_ne.
Qed.

(** *** Requests that go through *)

Lemma wp_of_eq {A} (m : M A) w r w' (Q : res A -> world -> Prop) :
  m w = (r, w') -> Q r w' -> wp m w Q.
Proof. unfold wp. by intros ->. Qed.

Lemma unsubscribe_accepted ev w e token u :
  carries ev (VStr e) token -> e <> EmptyString -> truthy token = true ->
  table w !! e = Some u -> u !! "email" = Some (VStr e) ->
  py_eq (dict_get u "token") token = true ->
  fault w (calls w) = false -> fault w (S (calls w)) = false ->
  unsubscribe ev w
  = (Ok (respond 200 "You are successfully unsubscribed"),
     World (<[e := unsubscribed_item u (clock w (ticks w))]> (table w))
           (outbox w) (files w) (fault w) (S (S (calls w)))
           (clock w) (S (ticks w)) (entropy w) (drawn w)).
Proof.
  intros (q & Hq & He & Ht) Hne Htr Hu Hem Heq F0 F1.
  apply truthy_str in Hne.
  apply wp_eq. unfold unsubscribe. wp_steps. rewrite Hq. wp_steps.
  rewrite He, Ht, Hne, Htr. cbn [negb orb]. wp_steps. rewrite F0, Hu.
  cbn [from_option]. wp_steps.
  rewrite (truthy_dict_lookup u _ _ Hem). cbn [negb]. wp_steps.
  unfold py_ne. rewrite Heq. cbn [negb]. wp_steps. wp_world. rewrite F1.
  rewrite !lookup_insert_ne, Hem by done. by wp_steps.
Qed.

Lemma verify_accepted ev w e token u html text :
  carries ev (VStr e) token -> e <> EmptyString -> truthy token = true ->
  table w !! e = Some u -> u !! "email" = Some (VStr e) ->
  py_eq (dict_get u "token") token = true ->
  fault w (calls w) = false -> fault w (S (calls w)) = false ->
  fault w (S (S (calls w))) = false ->
  files w !! "templates/verified.html" = Some html ->
  files w !! "templates/verified.txt" = Some text ->
  verify ev w
  = (Ok (respond 200 "User verified successfully"),
     World (<[e := verified_item u (clock w (ticks w))]> (table w))
           (outbox w ++ [confirmation_mail (VStr e) token html text])
           (files w) (fault w) (S (S (S (calls w))))
           (clock w) (S (ticks w)) (entropy w) (drawn w)).
Proof.
  intros (q & Hq & He & Ht) Hne Htr Hu Hem Heq F0 F1 F2 Hh Hx.
  apply truthy_str in Hne.
  apply wp_eq. unfold verify. wp_steps. rewrite Hq. wp_steps.
  rewrite He, Ht, Hne, Htr. cbn [negb orb]. wp_steps. rewrite F0, Hu.
  cbn [from_option]. wp_steps.
  rewrite (truthy_dict_lookup u _ _ Hem). cbn [negb]. wp_steps.
  unfold py_ne. rewrite Heq. cbn [negb]. wp_steps. wp_world. rewrite F1.
  rewrite !lookup_insert_ne, Hem by done. wp_steps. wp_world.
  rewrite Hh. wp_steps. wp_world. rewrite Hx. wp_steps. wp_world.
  rewrite F2. by wp_steps.
Qed.


Lemma subscribe_accepted ev w e html text :
  requests ev (VStr e) -> e <> EmptyString -> inactive w e ->
  fault w (calls w) = false -> fault w (S (calls w)) = false ->
  fault w (S (S (calls w))) = false ->
  files w !! "templates/verify.html" = Some html ->
  files w !! "templates/verify.txt" = Some text ->
  subscribe ev w
  = (Ok (respond 200 "User subscribed successfully"),
     World (<[e := pending_item (VStr e) (next_token w) (clock w (ticks w))
                      (clock w (S (ticks w)))]> (table w))
           (outbox w ++ [verification_mail (VStr e) (next_token w) html text])
           (files w) (fault w) (S (S (S (calls w))))
           (clock w) (S (S (ticks w))) (entropy w) (drawn w + 16)).
Proof.
  intros (b & Hb & He) Hne Hin F0 F1 F2 Hh Hx.
  apply truthy_str in Hne.
  apply wp_eq. unfold subscribe. wp_steps.
  apply (wp_of_eq _ _ _ _ _ (Hb w)). wp_steps. rewrite He, Hne. cbn [negb].
  wp_steps. rewrite F0.
  unfold inactive in Hin. wp_steps.
  destruct (table w !! e) as [u|]; cbn [from_option];
    [destruct (truthy (VDict u)) eqn:Hd;
       [wp_steps; cbn [andb] in Hin; rewrite Hin|]
    | cbn [truthy]].
  all: wp_steps; wp_world; rewrite F1.
  all: fold (token_at w (drawn w)); fold (next_token w).
  all: rewrite lookup_insert_eq; wp_steps; wp_world; rewrite Hh; wp_steps.
  all: wp_world; rewrite Hx; wp_steps; wp_world.
  all: rewrite F2; by wp_steps.
Qed.

(** *** Facts about tokens and written items *)

Lemma token_at_nonempty w n : token_at w n <> EmptyString.
Proof.
  intros H. apply (f_equal String.length) in H.
  unfold token_at in H. rewrite hex_length, length_map, length_seq in H.
  discriminate.
Qed.


Lemma pending_item_email email token c u :
  pending_item email token c u !! "email" = Some email.
Proof. apply lookup_insert_eq. Qed.

Lemma pending_item_token email token c u :
  pending_item email token c u !! "token" = Some (VStr token).
Proof.
  unfold pending_item. rewrite lookup_insert_ne by done. apply lookup_insert_eq.
Qed.

Lemma pending_item_verified email token c u :
  pending_item email token c u !! "verified" = Some (VBool false).
Proof.
  unfold pending_item. rewrite !lookup_insert_ne by done. apply lookup_insert_eq.
Qed.

Lemma verified_item_verified u ts :
  verified_item u ts !! "verified" = Some (VBool true).
Proof.
  unfold verified_item. rewrite lookup_insert_ne by done. apply lookup_insert_eq.
Qed.

Lemma verified_item_other u ts k :
  k <> "verified" -> k <> "updated_at" -> verified_item u ts !! k = u !! k.
Proof. intros. unfold verified_item. by rewrite !lookup_insert_ne. Qed.

Lemma unsubscribed_item_verified u ts :
  unsubscribed_item u ts !! "verified" = Some (VBool false).
Proof.
  unfold unsubscribed_item. rewrite lookup_insert_ne by done.
  apply lookup_insert_eq.
Qed.

Lemma unsubscribed_item_other u ts k :
  k <> "verified" -> k <> "updated_at" -> unsubscribed_item u ts !! k = u !! k.
Proof. intros. unfold unsubscribed_item. by rewrite !lookup_insert_ne. Qed.

(** *** Subscribing *)


(** C10. [subscribe] looks at the email only to see that it is not
    empty: for every non-empty string, when the lookup, the write and the
    sender succeed, the two templates can be read and the email has no
    active record, it answers 200 and the table holds under that string a
    record with that email, a token and [verified] [False]. *)
Theorem subscribe_any_nonempty_email ev w e html text :
  requests ev (VStr e) -> e <> EmptyString -> inactive w e ->
  fault w (calls w) = false -> fault w (S (calls w)) = false ->
  fault w (S (S (calls w))) = false ->
  files w !! "templates/verify.html" = Some html ->
  files w !! "templates/verify.txt" = Some text ->
  exists w' u,
    subscribe ev w = (Ok (respond 200 "User subscribed successfully"), w') /\
    statusCode (respond 200 "User subscribed successfully") = 200 /\
    table w' !! e = Some u /\
    u = pending_item (VStr e) (next_token w) (clock w (ticks w))
          (clock w (S (ticks w))) /\
    u !! "email" = Some (VStr e) /\
    u !! "token" = Some (VStr (next_token w)) /\
    u !! "verified" = Some (VBool false) /\
    (forall e', e' <> e -> table w' !! e' = table w !! e').
Proof.
  intros Hreq Hne Hin F0 F1 F2 Hh Hx.
  eexists _, _. split; [by eapply subscribe_accepted|].
  cbn [table]. split; [done|]. split; [apply lookup_insert_eq|].
  split; [done|]. split; [apply pending_item_email|].
  split; [apply pending_item_token|]. split; [apply pending_item_verified|].
  intros e' Hne'. by rewrite lookup_insert_ne.
Qed.

(** *** Verifying and unsubscribing *)

(** C4. In a world where no collaborator fails and the templates are in
    place, two [verify] calls in a row with the token stored for the
    email both give the same response, with status 200 and as body the
    JSON object whose [message] is "User verified successfully", and the
    record has [verified] [True] after each. *)
Theorem verify_twice ev w e token u :
  carries ev (VStr e) token -> e <> EmptyString -> truthy token = true ->
  wf_table (table w) -> table w !! e = Some u ->
  py_eq (dict_get u "token") token = true ->
  faultless w -> templates_present w ->
  exists w1 w2 u1 u2,
    verify ev w = (Ok (respond 200 "User verified successfully"), w1) /\
    table w1 !! e = Some u1 /\ u1 !! "verified" = Some (VBool true) /\
    verify ev w1 = (Ok (respond 200 "User verified successfully"), w2) /\
    table w2 !! e = Some u2 /\ u2 !! "verified" = Some (VBool true) /\
    (verify ev w).1 = (verify ev w1).1 /\
    exists r, (verify ev w).1 = Ok r /\ (verify ev w1).1 = Ok r /\
              statusCode r = 200 /\
              body r = "{" ++ dquote ++ "message" ++ dquote ++ ": "
                           ++ dquote ++ "User verified successfully"
                           ++ dquote ++ "}".
Proof.
  intros Hc Hne Htr Hwf Hu Heq Hf (_ & _ & [h Hh] & [x Hx]).
  pose proof (Hwf e u Hu) as Hem.
  pose proof (verify_accepted ev w e token u h x Hc Hne Htr Hu Hem Heq
                (Hf _) (Hf _) (Hf _) Hh Hx) as R1.
  set (w1 := World (<[e := verified_item u (clock w (ticks w))]> (table w))
                   (outbox w ++ [confirmation_mail (VStr e) token h x])
                   (files w) (fault w) (S (S (S (calls w))))
                   (clock w) (S (ticks w)) (entropy w) (drawn w)) in *.
  assert (Hu1 : table w1 !! e = Some (verified_item u (clock w (ticks w))))
    by apply lookup_insert_eq.
  assert (R2 : verify ev w1
               = (Ok (respond 200 "User verified successfully"),
                  World (<[e := verified_item
                                  (verified_item u (clock w (ticks w)))
                                  (clock w1 (ticks w1))]> (table w1))
                        (outbox w1 ++ [confirmation_mail (VStr e) token h x])
                        (files w1) (fault w1) (S (S (S (calls w1))))
                        (clock w1) (S (ticks w1)) (entropy w1) (drawn w1))).
  { apply verify_accepted; try done; try apply Hf.
    - by rewrite verified_item_other.
    - unfold dict_get. by rewrite verified_item_other. }
  eexists _, _, _, _.
  split; [exact R1|]. split; [exact Hu1|].
  split; [apply verified_item_verified|].
  split; [exact R2|].
  split; [cbn [table]; apply lookup_insert_eq|].
  split; [apply verified_item_verified|].
  rewrite R1, R2. split; [done|]. eexists. by repeat split.
Qed.

(** *** The key schema is an invariant *)

Lemma wf_table_insert t e u :
  wf_table t -> u !! "email" = Some (VStr e) -> wf_table (<[e := u]> t).
Proof.
  intros Hwf Hu e' u' H. apply lookup_insert_Some in H as [[<- <-] | [_ H]].
  - exact Hu.
  - by apply Hwf.
Qed.

Lemma commits_wf f ev w w' :
  (forall u ts, f u ts !! "email" = u !! "email") ->
  wf_table (table w) -> commits f ev w w' -> wf_table (table w').
Proof.
  intros Hf Hwf (e & token & u & _ & _ & _ & Hu & _ & ->).
  apply wf_table_insert; [done|]. rewrite Hf. by apply Hwf.
Qed.

Lemma outcome_wf f sends late ev w resp w' :
  (forall u ts, f u ts !! "email" = u !! "email") ->
  wf_table (table w) -> outcome f sends late ev w resp w' ->
  wf_table (table w').
Proof.
  intros Hf Hwf [(_ & Hc & _) | [(_ & -> & _) | (_ & _ & [-> | [_ Hc]])]];
    eauto using commits_wf.
Qed.

Lemma verify_preserves_wf ev w :
  wf_table (table w) -> wf_table (table (verify ev w).2).
Proof.
  intros Hwf. pose proof (verify_outcome ev w Hwf) as (resp & _ & H).
  eapply outcome_wf; [|done|exact H].
  intros u ts. by apply verified_item_other.
Qed.

Lemma unsubscribe_preserves_wf ev w :
  wf_table (table w) -> wf_table (table (unsubscribe ev w).2).
Proof.
  intros Hwf. pose proof (unsubscribe_outcome ev w Hwf) as (resp & _ & H).
  eapply outcome_wf; [|done|exact H].
  intros u ts. by apply unsubscribed_item_other.
Qed.

Lemma wp_load_body ev w (Q : res value -> world -> Prop) :
  (forall r, Q r w) -> wp (load_body ev) w Q.
Proof.
  intros H. unfold wp, load_body, try_except, bind, subscript, lift, ret, raise.
  destruct (ev !! "body") as [[| | |s| |]|]; simpl; try apply H.
  destruct (json_loads s) as [v|[]]; simpl; apply H.
Qed.

Lemma subscribe_preserves_wf ev w :
  wf_table (table w) -> wf_table (table (subscribe ev w).2).
Proof.
  intros Hwf.
  change (wp (subscribe ev) w (fun _ w' => wf_table (table w'))).
  unfold subscribe. wp_steps. apply wp_load_body. intros [body|e0]; [|by wp_steps].
  wp_steps. destruct body as [| | | | |b]; try by wp_steps.
  wp_steps. destruct (negb (truthy (dict_get b "email"))); [by wp_steps|].
  wp_steps. destruct (fault w (calls w)); [by wp_steps|].
  destruct (dict_get b "email") as [| | |e| |]; try by wp_steps.
  wp_steps.
  assert (Hrest : forall a : bool,
    wp (if a then ret (respond 400 "User already subscribed") else
        rnd <- urandom 16 ;; created <- now_isoformat ;;
        updated <- now_isoformat ;;
        add_user (VDict (pending_item (VStr e) (hex rnd) created updated)) ;;;
        html <- read_file "templates/verify.html" ;;
        text <- read_file "templates/verify.txt" ;;
        send_email (VStr e) "Verify your email"
          (Html (verification_mail (VStr e) (hex rnd) html text))
          (Text (verification_mail (VStr e) (hex rnd) html text)) ;;;
        ret (respond 200 "User subscribed successfully"))
       (called w)
       (fun r w' => match r with
                    | Ok _ => wf_table (table w')
                    | Raise e1 =>
                        wp (internal_error e1) w'
                           (fun _ w'0 => wf_table (table w'0))
                    end)).
  { intros [|]; [by wp_steps|]. wp_steps. wp_world.
    destruct (fault w (S (calls w))); [by wp_steps|].
    rewrite pending_item_email. wp_steps.
    assert (Hwf' : wf_table (<[e := pending_item (VStr e) (next_token w)
                                      (clock w (ticks w))
                                      (clock w (S (ticks w)))]> (table w)))
      by (apply wf_table_insert; [done | apply pending_item_email]).
    destruct (files _ !! "templates/verify.html"); [|by wp_steps].
    wp_steps. destruct (files _ !! "templates/verify.txt"); [|by wp_steps].
    wp_steps. wp_world. by destruct (fault w (S (S (calls w)))); wp_steps. }
  destruct (truthy (from_option VDict VNone (table w !! e))); [|apply Hrest].
  wp_steps. destruct (table w !! e) as [u|]; cbn [from_option]; [|by wp_steps].
  wp_steps. apply Hrest.
Qed.

(** Whatever the request, the handler leaves every item of the table
    under its own email. *)
Lemma lambda_handler_preserves_wf ev w :
  wf_table (table w) -> wf_table (table (lambda_handler ev w).2).
Proof.
  intros Hwf.
  change (wp (lambda_handler ev) w (fun _ w' => wf_table (table w'))).
  unfold lambda_handler. wp_steps.
  destruct (ev !! "httpMethod") as [m|]; [|by wp_steps].
  wp_steps. destruct (ev !! "path") as [p|]; [|by wp_steps].
  wp_steps.
  assert (Hh : forall h : M response,
             wf_table (table (h w).2) ->
             (exists r, (h w).1 = Ok r) ->
             wp h w (fun r w' => match r with
                                 | Ok _ => wf_table (table w')
                                 | Raise e =>
                                     wp (internal_error e) w'
                                        (fun _ w'0 => wf_table (table w'0))
                                 end)).
  { intros h H [r Hr]. unfold wp. by rewrite Hr. }
  destruct (py_eq m (VStr "POST") && py_eq p (VStr "/subscribe"));
    [apply Hh; [by apply subscribe_preserves_wf | apply subscribe_answers]|].
  destruct (py_eq m (VStr "GET") && py_eq p (VStr "/unsubscribe"));
    [apply Hh; [by apply unsubscribe_preserves_wf | apply unsubscribe_answers]|].
  destruct (py_eq m (VStr "GET") && py_eq p (VStr "/verify"));
    [apply Hh; [by apply verify_preserves_wf | apply verify_answers]|].
  by wp_steps.
Qed.

(** *** What subscribe does, path by path *)

Lemma load_body_pure ev w w0 :
  load_body ev w = ((load_body ev w0).1, w).
Proof.
  unfold load_body, try_except, bind, subscript, lift, ret, raise.
  destruct (ev !! "body") as [[| | |s| |]|]; simpl; try done.
  by destruct (json_loads s) as [v|[]].
Qed.

Lemma wp_load_body_run ev w (Q : res value -> world -> Prop) :
  (forall r, (forall w0, load_body ev w0 = (r, w0)) -> Q r w) ->
  wp (load_body ev) w Q.
Proof.
  intros H. unfold wp. rewrite (load_body_pure ev w w). simpl.
  apply H. intros w0. apply load_body_pure.
Qed.

Lemma same_setup_refl w : same_setup w w.
Proof. unfold same_setup. repeat split; lia. Qed.

Ltac same_setup_tac :=
  unfold same_setup; wp_world; repeat split; lia.

Lemma subscribe_run ev w :
  wp (subscribe ev) w
     (fun r w' => exists resp, r = Ok resp /\ subscribe_result ev w resp w').
Proof.
  unfold subscribe. wp_steps. apply wp_load_body_run. intros r Hb.
  assert (Hearly : forall w1, outbox w1 = outbox w -> table w1 = table w ->
            same_setup w w1 ->
            exists resp, Ok (respond 500 "Internal server error") = Ok resp /\
                         subscribe_result ev w resp w1).
  { intros w1 Ho Ht Hs. eexists; split; [done|]. do 3 right. auto. }
  destruct r as [body|e0];
    [|wp_steps; apply Hearly; auto using same_setup_refl].
  wp_steps. destruct body as [| | | | |b];
    try (wp_steps; apply Hearly; auto using same_setup_refl).
  wp_steps. destruct (truthy (dict_get b "email")) eqn:Hte; cbn [negb];
    [|wp_steps; eexists; split; [done|]; by left].
  wp_steps. destruct (fault w (calls w)) eqn:F0;
    [wp_steps; apply Hearly; [done | done | same_setup_tac]|].
  destruct (dict_get b "email") as [| | |e| |] eqn:He;
    try (wp_steps; apply Hearly; [done | done | same_setup_tac]).
  apply truthy_str in Hte.
  assert (Hreq : requests ev (VStr e)) by (exists b; done).
  wp_steps.
  assert (Hrest : forall a : bool,
    (a = true -> exists u, table w !! e = Some u /\
                           truthy (dict_get u "verified") = true) ->
    (a = false -> inactive w e) ->
    wp (if a then ret (respond 400 "User already subscribed") else
        rnd <- urandom 16 ;; created <- now_isoformat ;;
        updated <- now_isoformat ;;
        add_user (VDict (pending_item (VStr e) (hex rnd) created updated)) ;;;
        html <- read_file "templates/verify.html" ;;
        text <- read_file "templates/verify.txt" ;;
        send_email (VStr e) "Verify your email"
          (Html (verification_mail (VStr e) (hex rnd) html text))
          (Text (verification_mail (VStr e) (hex rnd) html text)) ;;;
        ret (respond 200 "User subscribed successfully"))
       (called w)
       (fun r w' =>
          match r with
          | Ok a => exists resp, Ok a = Ok resp /\ subscribe_result ev w resp w'
          | Raise e1 =>
              wp (internal_error e1) w'
                 (fun r0 w'0 => exists resp,
                      r0 = Ok resp /\ subscribe_result ev w resp w'0)
          end)).
  { intros [|] Hact Hin.
    { destruct (Hact eq_refl) as (u & Hu & Hv). wp_steps.
      eexists; split; [done|]. right; left.
      split; [done|]. split; [done|]. by exists e, u. }
    specialize (Hin eq_refl). wp_steps. wp_world.
    fold (token_at w (drawn w)). fold (next_token w).
    destruct (fault w (S (calls w))) eqn:F1;
      [wp_steps; apply Hearly; [done | done | same_setup_tac]|].
    rewrite pending_item_email. wp_steps.
    assert (Hlate : forall w1, outbox w1 = outbox w ->
              table w1 = <[e := pending_item (VStr e) (next_token w)
                                   (clock w (ticks w))
                                   (clock w (S (ticks w)))]> (table w) ->
              same_setup w w1 ->
              exists resp, Ok (respond 500 "Internal server error") = Ok resp /\
                           subscribe_result ev w resp w1).
    { intros w1 Ho Ht Hs. eexists; split; [done|]. do 3 right.
      split; [done|]. split; [done|]. split; [done|]. right. by exists e. }
    destruct (files _ !! "templates/verify.html") as [html|] eqn:Hh;
      [|wp_steps; apply Hlate; [done | done | same_setup_tac]].
    wp_steps.
    destruct (files _ !! "templates/verify.txt") as [text|] eqn:Hx;
      [|wp_steps; apply Hlate; [done | done | same_setup_tac]].
    wp_steps. wp_world.
    destruct (fault w (S (S (calls w)))) eqn:F2;
      [wp_steps; apply Hlate; [done | done | same_setup_tac]|].
    wp_steps. eexists; split; [done|]. right; right; left.
    split; [done|]. by exists e, html, text. }
  destruct (table w !! e) as [u|] eqn:Hu; cbn [from_option].
  - destruct (truthy (VDict u)) eqn:Hd.
    + wp_steps. apply Hrest.
      * intros Hv. by exists u.
      * intros Hv. unfold inactive. by rewrite Hu, Hd, Hv.
    + apply (Hrest false); [done|]. intros _. unfold inactive.
      by rewrite Hu, Hd.
  - cbn [truthy]. apply (Hrest false); [done|]. intros _. unfold inactive.
    by rewrite Hu.
Qed.

(** *** What verify and unsubscribe do, path by path *)

Lemma verify_run ev w :
  wf_table (table w) ->
  wp (verify ev) w
     (fun r w' => exists resp, r = Ok resp /\ verify_result ev w resp w').
Proof.
  intros Hwf. unfold verify. wp_steps.
  assert (Hearly : forall w1, outbox w1 = outbox w -> table w1 = table w ->
            same_setup w w1 ->
            exists resp, Ok (respond 500 "Internal server error") = Ok resp /\
                         verify_result ev w resp w1).
  { intros w1 Ho Ht Hs. eexists; split; [done|]. do 3 right. auto. }
  destruct (ev !! "queryStringParameters") as [qp|] eqn:Hq;
    [|wp_steps; apply Hearly; auto using same_setup_refl].
  wp_steps. destruct qp as [| | | | |q];
    try (wp_steps; apply Hearly; auto using same_setup_refl).
  wp_steps.
  destruct (negb (truthy (dict_get q "email")) || negb (truthy (dict_get q "token")))
    eqn:Hreq; [wp_steps; eexists; split; [done|]; by left|].
  apply orb_false_elim in Hreq as [Hte Htt]. apply negb_false_iff in Hte, Htt.
  wp_steps. destruct (fault w (calls w)) eqn:F0;
    [wp_steps; apply Hearly; [done | done | same_setup_tac]|].
  destruct (dict_get q "email") as [| | |e| |] eqn:He;
    try (wp_steps; apply Hearly; [done | done | same_setup_tac]).
  apply truthy_str in Hte.
  assert (Hc : carries ev (VStr e) (dict_get q "token")) by (by exists q).
  assert (Hdeny : rejects w e (dict_get q "token") ->
            exists resp, Ok (respond 400 "User verification failed") = Ok resp /\
                         verify_result ev w resp (called w)).
  { intros Hr. eexists; split; [done|]. right; left.
    split; [done|]. split; [done|]. by exists e, (dict_get q "token"). }
  destruct (table w !! e) as [u|] eqn:Hu; cbn [from_option]; wp_steps;
    [|cbn [truthy negb]; wp_steps; apply Hdeny; unfold rejects; by rewrite Hu].
  destruct (truthy (VDict u)) eqn:Hd; cbn [negb];
    [|wp_steps; apply Hdeny; unfold rejects; rewrite Hu; by left].
  wp_steps. unfold py_ne.
  destruct (py_eq (dict_get u "token") (dict_get q "token")) eqn:Ht;
    cbn [negb];
    [|wp_steps; apply Hdeny; unfold rejects, py_ne; rewrite Hu, Ht; by right].
  wp_steps. wp_world.
  destruct (fault w (S (calls w))) eqn:F1;
    [wp_steps; apply Hearly; [done | done | same_setup_tac]|].
  rewrite !lookup_insert_ne, (Hwf e u Hu) by done.
  fold (verified_item u (clock w (ticks w))).
  assert (Hlate : forall w1, outbox w1 = outbox w ->
            table w1 = <[e := verified_item u (clock w (ticks w))]> (table w) ->
            same_setup w w1 ->
            exists resp, Ok (respond 500 "Internal server error") = Ok resp /\
                         verify_result ev w resp w1).
  { intros w1 Ho Ht1 Hs. eexists; split; [done|]. do 3 right.
    split; [done|]. split; [done|]. split; [done|]. right.
    by exists e, (dict_get q "token"), u. }
  wp_steps.
  destruct (files _ !! "templates/verified.html") as [html|] eqn:Hh;
    [|wp_steps; apply Hlate; [done | done | same_setup_tac]].
  wp_steps.
  destruct (files _ !! "templates/verified.txt") as [text|] eqn:Hx;
    [|wp_steps; apply Hlate; [done | done | same_setup_tac]].
  wp_steps. wp_world.
  destruct (fault w (S (S (calls w)))) eqn:F2;
    [wp_steps; apply Hlate; [done | done | same_setup_tac]|].
  wp_steps. eexists; split; [done|]. right; right; left.
  split; [done|]. by exists e, (dict_get q "token"), u, html, text.
Qed.

Lemma unsubscribe_run ev w :
  wf_table (table w) ->
  wp (unsubscribe ev) w
     (fun r w' => exists resp, r = Ok resp /\ unsubscribe_result ev w resp w').
Proof.
  intros Hwf. unfold unsubscribe. wp_steps.
  assert (Hearly : forall w1, outbox w1 = outbox w -> table w1 = table w ->
            same_setup w w1 ->
            exists resp, Ok (respond 500 "Internal server error") = Ok resp /\
                         unsubscribe_result ev w resp w1).
  { intros w1 Ho Ht Hs. eexists; split; [done|]. do 3 right. auto. }
  destruct (ev !! "queryStringParameters") as [qp|] eqn:Hq;
    [|wp_steps; apply Hearly; auto using same_setup_refl].
  wp_steps. destruct qp as [| | | | |q];
    try (wp_steps; apply Hearly; auto using same_setup_refl).
  wp_steps.
  destruct (negb (truthy (dict_get q "email")) || negb (truthy (dict_get q "token")))
    eqn:Hreq; [wp_steps; eexists; split; [done|]; by left|].
  apply orb_false_elim in Hreq as [Hte Htt]. apply negb_false_iff in Hte, Htt.
  wp_steps. destruct (fault w (calls w)) eqn:F0;
    [wp_steps; apply Hearly; [done | done | same_setup_tac]|].
  destruct (dict_get q "email") as [| | |e| |] eqn:He;
    try (wp_steps; apply Hearly; [done | done | same_setup_tac]).
  apply truthy_str in Hte.
  assert (Hc : carries ev (VStr e) (dict_get q "token")) by (by exists q).
  assert (Hdeny : rejects w e (dict_get q "token") ->
            exists resp, Ok (respond 400 "Failed to unsubscribe") = Ok resp /\
                         unsubscribe_result ev w resp (called w)).
  { intros Hr. eexists; split; [done|]. right; left.
    split; [done|]. split; [done|]. by exists e, (dict_get q "token"). }
  destruct (table w !! e) as [u|] eqn:Hu; cbn [from_option]; wp_steps;
    [|cbn [truthy negb]; wp_steps; apply Hdeny; unfold rejects; by rewrite Hu].
  destruct (truthy (VDict u)) eqn:Hd; cbn [negb];
    [|wp_steps; apply Hdeny; unfold rejects; rewrite Hu; by left].
  wp_steps. unfold py_ne.
  destruct (py_eq (dict_get u "token") (dict_get q "token")) eqn:Ht;
    cbn [negb];
    [|wp_steps; apply Hdeny; unfold rejects, py_ne; rewrite Hu, Ht; by right].
  wp_steps. wp_world.
  destruct (fault w (S (calls w))) eqn:F1;
    [wp_steps; apply Hearly; [done | done | same_setup_tac]|].
  rewrite !lookup_insert_ne, (Hwf e u Hu) by done.
  fold (unsubscribed_item u (clock w (ticks w))).
  wp_steps. eexists; split; [done|]. right; right; left.
  split; [done|]. by exists e, (dict_get q "token"), u.
Qed.

(** *** The envelope and the footprint of every request *)

Ltac wp_split :=
  lazymatch goal with
  | |- wp (if ?c then _ else _) _ _ => destruct c
  | |- match ?x with _ => _ end => destruct x
  end.

Ltac wp_explore := repeat first [wp_step | wp_split].

Ltac effect_leaf :=
  eexists; (split; [reflexivity|]); unfold effect; wp_world;
  (split; [eexists _, _; (split; [reflexivity|]); lia|]);
  (split; [same_setup_tac|]);
  (split; [first [by left | right; by eexists]
          |first [by left | right; by eexists _, _]]).

Lemma unsubscribe_effect ev w :
  wp (unsubscribe ev) w
     (fun r w' => exists resp, r = Ok resp /\ effect w resp w').
Proof. unfold unsubscribe. wp_explore; effect_leaf. Qed.

Lemma verify_effect ev w :
  wp (verify ev) w
     (fun r w' => exists resp, r = Ok resp /\ effect w resp w').
Proof. unfold verify. wp_explore; effect_leaf. Qed.

Lemma subscribe_effect ev w :
  wp (subscribe ev) w
     (fun r w' => exists resp, r = Ok resp /\ effect w resp w').
Proof.
  unfold subscribe. wp_steps. apply wp_load_body. intros r.
  destruct r; wp_explore; effect_leaf.
Qed.

Lemma lambda_handler_effect ev w :
  wp (lambda_handler ev) w
     (fun r w' => exists resp, r = Ok resp /\ effect w resp w').
Proof.
  unfold lambda_handler. wp_explore; try effect_leaf.
  - eapply wp_mono; [apply subscribe_effect|]. intros r w' (resp & -> & H); by exists resp.
  - eapply wp_mono; [apply unsubscribe_effect|]. intros r w' (resp & -> & H); by exists resp.
  - eapply wp_mono; [apply verify_effect|]. intros r w' (resp & -> & H); by exists resp.
Qed.

(** *** The one write of a request *)

Lemma lambda_handler_route ev w :
  lambda_handler ev w = subscribe ev w \/
  lambda_handler ev w = unsubscribe ev w \/
  lambda_handler ev w = verify ev w \/
  lambda_handler ev w = (Ok (respond 405 "Method not allowed"), w) \/
  lambda_handler ev w = (Ok (respond 500 "Internal server error"), w).
Proof.
  unfold lambda_handler, try_except, bind, subscript.
  destruct (ev !! "httpMethod") as [m|]; [|by do 4 right].
  destruct (ev !! "path") as [p|]; [|by do 4 right].
  cbn [ret].
  destruct (py_eq m (VStr "POST") && py_eq p (VStr "/subscribe")).
  { left. destruct (subscribe_answers ev w) as [r Hr].
    destruct (subscribe ev w) as [[a|e] w']; simpl in *; congruence. }
  destruct (py_eq m (VStr "GET") && py_eq p (VStr "/unsubscribe")).
  { right; left. destruct (unsubscribe_answers ev w) as [r Hr].
    destruct (unsubscribe ev w) as [[a|e] w']; simpl in *; congruence. }
  destruct (py_eq m (VStr "GET") && py_eq p (VStr "/verify")).
  { do 2 right; left. destruct (verify_answers ev w) as [r Hr].
    destruct (verify ev w) as [[a|e] w']; simpl in *; congruence. }
  by do 3 right; left.
Qed.

Lemma subscribe_wrote ev w : wrote ev w (subscribe ev w).2.
Proof.
  pose proof (subscribe_run ev w) as (resp & _ & H). unfold wp in *.
  destruct (subscribe ev w) as [r w']. cbn [fst snd] in *.
  unfold wrote. destruct H as [(_ & ->) | [(_ & -> & _) | [(_ & H) | (_ & _ & _ & H)]]];
    try by left.
  - destruct H as (e & html & text & Hreq & _ & _ & _ & _ & ->).
    right. eexists e, _. split; [done|]. split; [by left|].
    unfold dict_get. by rewrite pending_item_verified.
  - destruct H as [-> | (e & Hreq & _ & _ & ->)]; [by left|].
    right. eexists e, _. split; [done|]. split; [by left|].
    unfold dict_get. by rewrite pending_item_verified.
Qed.

Lemma unsubscribe_wrote ev w :
  wf_table (table w) -> wrote ev w (unsubscribe ev w).2.
Proof.
  intros Hwf. pose proof (unsubscribe_run ev w Hwf) as (resp & _ & H).
  unfold wp in *. destruct (unsubscribe ev w) as [r w']. cbn [fst snd] in *.
  unfold wrote.
  destruct H as [(_ & ->) | [(_ & -> & _) | [(_ & H) | (_ & _ & _ & ->)]]];
    try by left.
  destruct H as (e & token & u & Hc & _ & _ & _ & _ & ->).
  right. eexists e, _. split; [done|]. split; [right; by exists token|].
  unfold dict_get. by rewrite unsubscribed_item_verified.
Qed.

Lemma verify_wrote ev w :
  wf_table (table w) -> wrote ev w (verify ev w).2.
Proof.
  intros Hwf. pose proof (verify_run ev w Hwf) as (resp & _ & H).
  unfold wp in *. destruct (verify ev w) as [r w']. cbn [fst snd] in *.
  unfold wrote. destruct H as [(_ & ->) | [(_ & -> & _) | [(_ & H) | (_ & _ & _ & H)]]];
    try by left.
  - destruct H as (e & token & u & html & text & Hc & _ & Htr & Hu & Ht
                   & _ & _ & ->).
    right. eexists e, _. split; [done|]. split; [right; by exists token|].
    intros _. by exists token, u.
  - destruct H as [-> | (e & token & u & Hc & Htr & Hu & Ht & ->)]; [by left|].
    right. eexists e, _. split; [done|]. split; [right; by exists token|].
    intros _. by exists token, u.
Qed.

Lemma lambda_handler_wrote ev w :
  wf_table (table w) -> wrote ev w (lambda_handler ev w).2.
Proof.
  intros Hwf.
  destruct (lambda_handler_route ev w) as [-> | [-> | [-> | [-> | ->]]]];
    [apply subscribe_wrote | by apply unsubscribe_wrote
    | by apply verify_wrote | by left | by left].
Qed.

(** X1. Whatever the event, [lambda_handler] raises nothing: it answers
    with the envelope of the handler, the CORS headers, a status among
    200, 400, 405 and 500, and as body the JSON of one message. *)
Theorem lambda_handler_envelope ev w :
  exists code msg w',
    lambda_handler ev w = (Ok (respond code msg), w') /\
    (code = 200 \/ code = 400 \/ code = 405 \/ code = 500) /\
    headers (respond code msg) = cors_headers /\
    body (respond code msg) = json_dumps_message msg.
Proof.
  pose proof (lambda_handler_effect ev w) as (resp & Hr & Hresp & _).
  destruct Hresp as (code & msg & -> & Hcode).
  exists code, msg, (lambda_handler ev w).2. split; [|done].
  destruct (lambda_handler ev w) as [r w']. simpl in *. by rewrite Hr.
Qed.

(** X2. A request leaves the files, the fault schedule, the clock and the
    entropy of the world alone; it makes at most three collaborator
    calls, takes at most two clock readings and draws at most sixteen
    bytes; it sends at most one message; and it writes at most one
    record, so that no record is ever deleted. *)
Theorem lambda_handler_footprint ev w :
  let w' := (lambda_handler ev w).2 in
  same_setup w w' /\
  (outbox w' = outbox w \/ exists m, outbox w' = (outbox w ++ [m])%list) /\
  (table w' = table w \/ exists e u', table w' = <[e := u']> (table w)) /\
  (forall e, is_Some (table w !! e) -> is_Some (table w' !! e)).
Proof.
  pose proof (lambda_handler_effect ev w) as (resp & _ & _ & Hs & Ho & Ht).
  cbn zeta. repeat (split; [done|]).
  intros e He. destruct Ht as [-> | (e0 & u' & ->)]; [done|].
  destruct (decide (e0 = e)) as [->|Hne].
  - rewrite lookup_insert_eq. by eexists.
  - by rewrite lookup_insert_ne.
Qed.

(** X3. A request changes at most the record of the email it names, in
    its body or in its query parameters: the record of every other email
    reads as before. *)
Theorem lambda_handler_isolation ev w e :
  wf_table (table w) ->
  table (lambda_handler ev w).2 !! e <> table w !! e ->
  names ev e.
Proof.
  intros Hwf Hne.
  destruct (lambda_handler_wrote ev w Hwf) as [Ht | (e0 & u' & Ht & Hn & _)].
  - by rewrite Ht in Hne.
  - destruct (decide (e0 = e)) as [<-|Hd]; [done|].
    rewrite Ht, lookup_insert_ne in Hne; done.
Qed.

(** X5. A [verify] that answers 200 was given the token stored for the
    email. It has replaced that record by one with [verified] [True] and
    [updated_at] the new clock reading, every other attribute as before,
    and has sent exactly one message, to that email and from
    [FROM_EMAIL], made of the two templates with the unsubscribe link
    for that email and token in place of the placeholder. *)
Theorem verify_success ev w resp w' :
  wf_table (table w) ->
  verify ev w = (Ok resp, w') ->
  statusCode resp = 200 ->
  exists e token u u' html text,
    carries ev (VStr e) token /\
    table w !! e = Some u /\ py_eq (dict_get u "token") token = true /\
    table w' = <[e := u']> (table w) /\
    u' !! "verified" = Some (VBool true) /\
    u' !! "updated_at" = Some (VStr (clock w (ticks w))) /\
    (forall k, k <> "verified" -> k <> "updated_at" -> u' !! k = u !! k) /\
    files w !! "templates/verified.html" = Some html /\
    files w !! "templates/verified.txt" = Some text /\
    outbox w' = (outbox w ++ [confirmation_mail (VStr e) token html text])%list /\
    ToAddresses (confirmation_mail (VStr e) token html text) = [VStr e] /\
    Source (confirmation_mail (VStr e) token html text) = FROM_EMAIL /\
    Html (confirmation_mail (VStr e) token html text)
    = replace "{{unsubscribe_url}}"
        (DOMAIN ++ "/unsubscribe?email=" ++ e ++ "&token=" ++ fstr token) html.
Proof.
  intros Hwf Hrun Hs.
  pose proof (wp_run _ _ _ _ _ (verify_run ev w Hwf) Hrun) as (r & E & H).
  injection E as <-.
  destruct H as [(-> & _) | [(-> & _) | [(_ & H) | (-> & _)]]];
    try discriminate Hs.
  destruct H as (e & token & u & html & text & Hc & _ & _ & Hu & Ht
                 & Hh & Hx & ->).
  exists e, token, u, (verified_item u (clock w (ticks w))), html, text.
  repeat (split; [done|]).
  split; [apply verified_item_verified|].
  split; [apply lookup_insert_eq|].
  split; [intros k H1 H2; by apply verified_item_other|].
  by repeat split.
Qed.

(** X6. A [subscribe] that answers 200 has stored, under the email of
    the body, a record with a new token and [verified] [False], and has
    sent exactly one message to that email whose links carry the very
    token that was stored. *)
Theorem subscribe_success ev w resp w' :
  subscribe ev w = (Ok resp, w') ->
  statusCode resp = 200 ->
  exists e token html text,
    requests ev (VStr e) /\ e <> EmptyString /\ inactive w e /\
    token = next_token w /\
    table w' = <[e := pending_item (VStr e) token (clock w (ticks w))
                         (clock w (S (ticks w)))]> (table w) /\
    table w' !! e ≫= (.!! "token") = Some (VStr token) /\
    table w' !! e ≫= (.!! "verified") = Some (VBool false) /\
    files w !! "templates/verify.html" = Some html /\
    files w !! "templates/verify.txt" = Some text /\
    outbox w' = (outbox w ++ [verification_mail (VStr e) token html text])%list /\
    ToAddresses (verification_mail (VStr e) token html text) = [VStr e] /\
    Text (verification_mail (VStr e) token html text)
    = replace "{{verify_url}}"
        (DOMAIN ++ "/verify?email=" ++ e ++ "&token=" ++ token) text.
Proof.
  intros Hrun Hs.
  pose proof (wp_run _ _ _ _ _ (subscribe_run ev w) Hrun) as (r & E & H).
  injection E as <-.
  destruct H as [(-> & _) | [(-> & _) | [(_ & H) | (-> & _)]]];
    try discriminate Hs.
  destruct H as (e & html & text & Hreq & Hne & Hin & Hh & Hx & ->).
  exists e, (next_token w), html, text. cbn [table outbox].
  rewrite lookup_insert_eq. cbn [mbind option_bind].
  rewrite pending_item_token, pending_item_verified. by repeat split.
Qed.

(** X7. [subscribe] always answers, with 200, 400 or 500. A 400 has
    written nothing, sent nothing and drawn no token. A 500 has sent
    nothing, but the table is either as it was or already holds the new
    pending record with its new token: a fault after the write (a
    template that cannot be read, the sender) replaces the record and
    its token although no message goes out. *)
Theorem subscribe_outcomes ev w :
  exists resp w',
    subscribe ev w = (Ok resp, w') /\
    (statusCode resp = 200 \/ statusCode resp = 400 \/ statusCode resp = 500) /\
    (statusCode resp = 400 ->
     table w' = table w /\ outbox w' = outbox w /\ drawn w' = drawn w) /\
    (statusCode resp = 200 ->
     exists e m, requests ev (VStr e) /\
                 outbox w' = (outbox w ++ [m])%list /\
                 table w' !! e ≫= (.!! "token") = Some (VStr (next_token w))) /\
    (statusCode resp = 500 ->
     outbox w' = outbox w /\
     (table w' = table w \/
      exists e, requests ev (VStr e) /\ inactive w e /\
                table w' = <[e := pending_item (VStr e) (next_token w)
                                     (clock w (ticks w))
                                     (clock w (S (ticks w)))]> (table w))).
Proof.
  pose proof (subscribe_run ev w) as (resp & Hr & H). unfold wp in *.
  destruct (subscribe ev w) as [r w']. cbn [fst snd] in *. subst r.
  exists resp, w'. split; [done|].
  destruct H as [(-> & ->) | [(-> & -> & _) | [(-> & H) | (-> & Ho & _ & H)]]];
    cbn [statusCode respond].
  - repeat split; try done; auto; intros; discriminate.
  - repeat split; try done; auto; intros; discriminate.
  - destruct H as (e & html & text & Hreq & _ & _ & _ & _ & ->).
    split; [auto|]. split; [intros; discriminate|]. split; [|intros; discriminate].
    intros _. exists e. eexists. split; [done|]. split; [done|].
    cbn [table]. rewrite lookup_insert_eq. cbn [mbind option_bind].
    apply pending_item_token.
  - split; [auto|]. split; [intros; discriminate|]. split; [intros; discriminate|].
    intros _. split; [done|].
    destruct H as [H | (e & Hreq & _ & Hin & H)]; [by left|].
    right. by exists e.
Qed.

(** *** Input validation *)

(** X10. [load_body] never touches the world. It raises
    [ValueError("Invalid body")] when the event has no body or
    [json.loads] refuses it; a body that is not a str is handed back
    undecoded; a str body is handed back decoded; and neither [KeyError]
    nor [JSONDecodeError] ever leaves it. *)
Theorem load_body_behaviour ev w :
  (load_body ev w).2 = w /\
  (ev !! "body" = None ->
   (load_body ev w).1 = Raise (ValueError "Invalid body")) /\
  (forall v, ev !! "body" = Some v -> (forall s, v <> VStr s) ->
             (load_body ev w).1 = Ok v) /\
  (forall s v, ev !! "body" = Some (VStr s) -> json_loads s = Ok v ->
               (load_body ev w).1 = Ok v) /\
  (forall s, ev !! "body" = Some (VStr s) ->
             json_loads s = Raise JSONDecodeError ->
             (load_body ev w).1 = Raise (ValueError "Invalid body")) /\
  (forall e, (load_body ev w).1 = Raise e ->
             e <> KeyError /\ e <> JSONDecodeError).
Proof.
  split; [by rewrite (load_body_pure ev w w)|].
  unfold load_body, try_except, bind, subscript, lift, ret, raise.
  split; [by intros ->|]. split.
  { intros v -> Hv. destruct v; try done. by destruct (Hv s). }
  split; [by intros s v -> ->|]. split; [by intros s -> ->|].
  intros e. destruct (ev !! "body") as [[| | |s| |]|]; simpl; try done.
  - destruct (json_loads s) as [v|[]]; simpl; intros [= <-]; done.
  - intros [= <-]. done.
Qed.

(** X11. [subscribe] on a body that decodes to a dict whose [email] is
    missing, [None], empty or otherwise falsy answers 400 "Email is
    required" without calling any collaborator. *)
Theorem subscribe_requires_email ev w b :
  load_body ev w = (Ok (VDict b), w) ->
  truthy (dict_get b "email") = false ->
  subscribe ev w = (Ok (respond 400 "Email is required"), w).
Proof.
  intros Hb He. apply wp_eq. unfold subscribe. wp_steps.
  apply (wp_of_eq _ _ _ _ _ Hb). wp_steps. rewrite He. by wp_steps.
Qed.

(** X12. [subscribe] on an event whose body is missing, is refused by
    [json.loads], or is anything but a dict once decoded, answers 500
    "Internal server error" without calling any collaborator. *)
Theorem subscribe_bad_body ev w :
  (forall b, (load_body ev w).1 <> Ok (VDict b)) ->
  subscribe ev w = (Ok (respond 500 "Internal server error"), w).
Proof.
  intros Hb. apply wp_eq. unfold subscribe. wp_steps.
  apply (wp_of_eq _ _ _ _ _ (load_body_pure ev w w)).
  destruct (load_body ev w).1 as [[| | | | |b]|e]; wp_steps; try done.
  by destruct (Hb b).
Qed.

(** X13. [verify] and [unsubscribe] on a query map whose [email] or
    [token] is missing, empty or otherwise falsy answer 400 "Email and
    token are required" without looking the record up. *)
Theorem parameters_required ev w email token :
  carries ev email token ->
  truthy email = false \/ truthy token = false ->
  verify ev w = (Ok (respond 400 "Email and token are required"), w) /\
  unsubscribe ev w = (Ok (respond 400 "Email and token are required"), w).
Proof.
  intros (q & Hq & He & Ht) H.
  assert (Hc : negb (truthy (dict_get q "email"))
               || negb (truthy (dict_get q "token")) = true).
  { rewrite He, Ht. destruct H as [-> | ->]; [done | apply orb_true_r]. }
  split; apply wp_eq; [unfold verify | unfold unsubscribe]; wp_steps;
    rewrite Hq; wp_steps; rewrite Hc; by wp_steps.
Qed.

(** *** Collaborators that fail *)

(** X14. When the lookup of the record raises, each of the three
    operations answers 500 "Internal server error"; the table and the
    outbox are as they were and no token has been drawn. *)
Theorem store_down_is_500 evs b evq email token w :
  load_body evs w = (Ok (VDict b), w) ->
  truthy (dict_get b "email") = true ->
  carries evq email token -> truthy email = true -> truthy token = true ->
  fault w (calls w) = true ->
  subscribe evs w = (Ok (respond 500 "Internal server error"), called w) /\
  verify evq w = (Ok (respond 500 "Internal server error"), called w) /\
  unsubscribe evq w = (Ok (respond 500 "Internal server error"), called w) /\
  table (called w) = table w /\ outbox (called w) = outbox w /\
  drawn (called w) = drawn w.
Proof.
  intros Hb Hbe (q & Hq & He & Ht) Hte Htt F0.
  split; [|split; [|split; [|done]]]; apply wp_eq.
  - unfold subscribe. wp_steps. apply (wp_of_eq _ _ _ _ _ Hb). wp_steps.
    rewrite Hbe. cbn [negb]. wp_steps. rewrite F0. by wp_steps.
  - unfold verify. wp_steps. rewrite Hq. wp_steps.
    rewrite He, Ht, Hte, Htt. cbn [negb orb]. wp_steps. rewrite F0.
    by wp_steps.
  - unfold unsubscribe. wp_steps. rewrite Hq. wp_steps.
    rewrite He, Ht, Hte, Htt. cbn [negb orb]. wp_steps. rewrite F0.
    by wp_steps.
Qed.

(** Runs [subscribe] up to the write of the new record. *)
Ltac subscribe_to_write w e Hreq Hne Hin F0 :=
  let b := fresh "b" in
  let Hb := fresh "Hb" in
  let He := fresh "He" in
  let u := fresh "u" in
  let Hd := fresh "Hd" in
  destruct Hreq as (b & Hb & He); apply truthy_str in Hne;
  apply wp_eq; unfold subscribe; wp_steps;
  apply (wp_of_eq _ _ _ _ _ (Hb w)); wp_steps; rewrite He, Hne; cbn [negb];
  wp_steps; rewrite F0; wp_steps; unfold inactive in Hin;
  destruct (table w !! e) as [u|]; cbn [from_option];
    [destruct (truthy (VDict u)) eqn:Hd;
       [wp_steps; cbn [andb] in Hin; rewrite Hin|]
    | cbn [truthy]];
  wp_steps; wp_world;
  fold (token_at w (drawn w)); fold (next_token w).

(** X15. When the lookup succeeds, the email has no active record and
    the write of the new record raises, [subscribe] answers 500: the
    table and the outbox are as they were, and the token drawn is
    lost. *)
Theorem subscribe_write_fault ev w e :
  requests ev (VStr e) -> e <> EmptyString -> inactive w e ->
  fault w (calls w) = false -> fault w (S (calls w)) = true ->
  exists w',
    subscribe ev w = (Ok (respond 500 "Internal server error"), w') /\
    table w' = table w /\ outbox w' = outbox w /\
    drawn w' = (drawn w + 16)%nat.
Proof.
  intros Hreq Hne Hin F0 F1. eexists. split.
  { subscribe_to_write w e Hreq Hne Hin F0.
    all: rewrite F1; by wp_steps. }
  by repeat split.
Qed.

(** X16. [subscribe] is not atomic. When the lookup and the write
    succeed but a template cannot be read or the sender raises, it
    answers 500 and sends nothing, yet the new pending record is stored:
    whatever record the email had is replaced, its token with it. *)
Theorem subscribe_fault_after_write ev w e :
  requests ev (VStr e) -> e <> EmptyString -> inactive w e ->
  fault w (calls w) = false -> fault w (S (calls w)) = false ->
  files w !! "templates/verify.html" = None \/
  files w !! "templates/verify.txt" = None \/
  fault w (S (S (calls w))) = true ->
  exists w',
    subscribe ev w = (Ok (respond 500 "Internal server error"), w') /\
    outbox w' = outbox w /\
    table w' = <[e := pending_item (VStr e) (next_token w)
                         (clock w (ticks w)) (clock w (S (ticks w)))]>
                 (table w) /\
    table w' !! e ≫= (.!! "token") = Some (VStr (next_token w)).
Proof.
  intros Hreq Hne Hin F0 F1 Hbad.
  assert (Htok : forall t : gmap string (gmap string value),
             <[e := pending_item (VStr e) (next_token w) (clock w (ticks w))
                      (clock w (S (ticks w)))]> t !! e ≫= (.!! "token")
             = Some (VStr (next_token w))).
  { intros t. rewrite lookup_insert_eq. apply pending_item_token. }
  assert (Hfin : forall w',
             subscribe ev w = (Ok (respond 500 "Internal server error"), w') ->
             outbox w' = outbox w ->
             table w' = <[e := pending_item (VStr e) (next_token w)
                                  (clock w (ticks w))
                                  (clock w (S (ticks w)))]> (table w) ->
             exists w',
               subscribe ev w = (Ok (respond 500 "Internal server error"), w') /\
               outbox w' = outbox w /\
               table w' = <[e := pending_item (VStr e) (next_token w)
                                    (clock w (ticks w))
                                    (clock w (S (ticks w)))]> (table w) /\
               table w' !! e ≫= (.!! "token") = Some (VStr (next_token w))).
  { intros w' Hrun Ho Ht. exists w'. repeat (split; [done|]).
    rewrite Ht. apply Htok. }
  destruct (files w !! "templates/verify.html") as [html|] eqn:Hh.
  2:{ eapply Hfin;
        [subscribe_to_write w e Hreq Hne Hin F0;
         rewrite F1, lookup_insert_eq; wp_steps; wp_world;
         rewrite Hh; wp_steps; split; reflexivity
        | reflexivity | reflexivity]. }
  destruct (files w !! "templates/verify.txt") as [text|] eqn:Hx.
  2:{ eapply Hfin;
        [subscribe_to_write w e Hreq Hne Hin F0;
         rewrite F1, lookup_insert_eq; wp_steps; wp_world;
         rewrite Hh; wp_steps; wp_world; rewrite Hx; wp_steps;
         split; reflexivity
        | reflexivity | reflexivity]. }
  destruct Hbad as [? | [? | F2]]; [done | done |].
  eapply Hfin;
    [subscribe_to_write w e Hreq Hne Hin F0;
     rewrite F1, lookup_insert_eq; wp_steps; wp_world;
     rewrite Hh; wp_steps; wp_world; rewrite Hx; wp_steps; wp_world;
     rewrite F2; wp_steps; split; reflexivity
    | reflexivity | reflexivity].
Qed.

(** *** Tokens *)

Lemma hex_byte_digits b :
  is_hex_digit (hex_digit (Byte.to_N b / 16)) = true /\
  is_hex_digit (hex_digit (Byte.to_N b mod 16)) = true.
Proof. by destruct b. Qed.

Lemma hex_byte_decode b :
  (16 * unhex_digit (hex_digit (Byte.to_N b / 16))
   + unhex_digit (hex_digit (Byte.to_N b mod 16)))%N = Byte.to_N b.
Proof. by destruct b. Qed.

Lemma hex_digits bs : all_chars is_hex_digit (hex bs) = true.
Proof.
  induction bs as [|b bs IH]; [done|]. cbn [hex all_chars].
  destruct (hex_byte_digits b) as [-> ->]. exact IH.
Qed.

Lemma hex_inj bs1 bs2 : hex bs1 = hex bs2 -> bs1 = bs2.
Proof.
  revert bs2. induction bs1 as [|b1 bs1 IH]; intros [|b2 bs2] H;
    try done.
  cbn [hex] in H. injection H as H1 H2 H3. f_equal; [|by apply IH].
  assert (Hn : Byte.to_N b1 = Byte.to_N b2)
    by (rewrite <- (hex_byte_decode b1), <- (hex_byte_decode b2), H1, H2; done).
  pose proof (Byte.of_to_N b1) as E1. rewrite Hn, Byte.of_to_N in E1.
  by injection E1.
Qed.

(** X17. The token a successful [subscribe] stores is thirty-two
    lower-case hexadecimal digits: it needs no escaping in the links of
    the message. *)
Theorem subscribe_token_shape ev w resp w' :
  subscribe ev w = (Ok resp, w') ->
  statusCode resp = 200 ->
  exists e token,
    requests ev (VStr e) /\
    table w' !! e ≫= (.!! "token") = Some (VStr token) /\
    String.length token = 32%nat /\
    all_chars is_hex_digit token = true.
Proof.
  intros Hrun Hs.
  pose proof (wp_run _ _ _ _ _ (subscribe_run ev w) Hrun) as (r & E & H).
  injection E as <-.
  destruct H as [(-> & _) | [(-> & _) | [(_ & H) | (-> & _)]]];
    try discriminate Hs.
  destruct H as (e & html & text & Hreq & _ & _ & _ & _ & ->).
  exists e, (next_token w). split; [done|]. cbn [table].
  rewrite lookup_insert_eq. split; [apply pending_item_token|].
  unfold next_token, token_at.
  split; [by rewrite hex_length, length_map, length_seq | apply hex_digits].
Qed.

(** X18. Two tokens are the same exactly when the sixteen bytes they
    were drawn from are the same: [hex] loses nothing, so tokens collide
    only if the entropy repeats. *)
Theorem token_at_eq_iff w n w' m :
  token_at w n = token_at w' m <->
  forall i, (i < 16)%nat -> entropy w (n + i)%nat = entropy w' (m + i)%nat.
Proof.
  unfold token_at. split.
  - intros H%hex_inj i Hi.
    apply (proj1 List.map_ext_in_iff H i). apply in_seq. lia.
  - intros H. f_equal. apply List.map_ext_in. intros i Hi%in_seq.
    apply H. lia.
Qed.

(** *** The operations in sequence *)

(** X19. With no collaborator failing and the templates in place: a
    subscription for a non-empty email with no active record, a [verify]
    with the token just stored, and an [unsubscribe] with the same token
    all answer 200; the record is inactive, then active, then inactive
    again; its token is the same throughout; two messages have gone
    out. *)
Theorem subscribe_verify_unsubscribe evs evv evu w e :
  requests evs (VStr e) -> e <> EmptyString -> inactive w e ->
  faultless w -> templates_present w ->
  carries evv (VStr e) (VStr (next_token w)) ->
  carries evu (VStr e) (VStr (next_token w)) ->
  exists w1 w2 w3,
    subscribe evs w = (Ok (respond 200 "User subscribed successfully"), w1) /\
    verify evv w1 = (Ok (respond 200 "User verified successfully"), w2) /\
    unsubscribe evu w2
    = (Ok (respond 200 "You are successfully unsubscribed"), w3) /\
    table w1 !! e ≫= (.!! "verified") = Some (VBool false) /\
    table w2 !! e ≫= (.!! "verified") = Some (VBool true) /\
    table w3 !! e ≫= (.!! "verified") = Some (VBool false) /\
    table w1 !! e ≫= (.!! "token") = Some (VStr (next_token w)) /\
    table w2 !! e ≫= (.!! "token") = Some (VStr (next_token w)) /\
    table w3 !! e ≫= (.!! "token") = Some (VStr (next_token w)) /\
    length (outbox w3) = (length (outbox w) + 2)%nat.
Proof.
  intros Hreq Hne Hin Hf ([h Hh] & [x Hx] & [h' Hh'] & [x' Hx']) Hcv Hcu.
  pose proof (subscribe_accepted evs w e h x Hreq Hne Hin
                (Hf _) (Hf _) (Hf _) Hh Hx) as R1.
  set (u1 := pending_item (VStr e) (next_token w) (clock w (ticks w))
               (clock w (S (ticks w)))) in *.
  set (w1 := World (<[e := u1]> (table w)) _ _ _ _ _ _ _ _) in R1.
  assert (Htr : truthy (VStr (next_token w)) = true)
    by apply truthy_str, token_at_nonempty.
  assert (Hk1 : py_eq (dict_get u1 "token") (VStr (next_token w)) = true).
  { unfold dict_get, u1. rewrite pending_item_token. apply py_eq_str_refl. }
  pose proof (verify_accepted evv w1 e (VStr (next_token w)) u1 h' x'
                Hcv Hne Htr (lookup_insert_eq _ _ _)
                (pending_item_email _ _ _ _) Hk1
                (Hf _) (Hf _) (Hf _) Hh' Hx') as R2.
  set (u2 := verified_item u1 (clock w1 (ticks w1))) in *.
  set (w2 := World (<[e := u2]> (table w1)) _ _ _ _ _ _ _ _) in R2.
  assert (Hk2 : py_eq (dict_get u2 "token") (VStr (next_token w)) = true).
  { unfold dict_get, u2. by rewrite verified_item_other. }
  assert (He2 : u2 !! "email" = Some (VStr e)).
  { unfold u2. rewrite verified_item_other by done. apply pending_item_email. }
  pose proof (unsubscribe_accepted evu w2 e (VStr (next_token w)) u2
                Hcu Hne Htr (lookup_insert_eq _ _ _) He2 Hk2
                (Hf _) (Hf _)) as R3.
  set (u3 := unsubscribed_item u2 (clock w2 (ticks w2))) in *.
  eexists _, _, _. split; [exact R1|]. split; [exact R2|]. split; [exact R3|].
  subst w2 w1. cbn [table outbox]. rewrite !lookup_insert_eq.
  cbn [mbind option_bind]. subst u3 u2.
  rewrite unsubscribed_item_verified, verified_item_verified.
  rewrite !unsubscribed_item_other, !verified_item_other by done.
  subst u1. rewrite pending_item_verified, pending_item_token.
  repeat split. rewrite !length_app. simpl. lia.
Qed.

(** X20. The guard of [unsubscribe] looks at the token only, not at the
    state of the record: with no collaborator failing, two [unsubscribe]
    calls in a row with the stored token both answer 200, whether or not
    the record was ever verified; the record has [verified] [False]
    after each, and no message is sent. *)
Theorem unsubscribe_twice ev w e token u :
  carries ev (VStr e) token -> e <> EmptyString -> truthy token = true ->
  wf_table (table w) -> table w !! e = Some u ->
  py_eq (dict_get u "token") token = true ->
  faultless w ->
  exists w1 w2,
    unsubscribe ev w
    = (Ok (respond 200 "You are successfully unsubscribed"), w1) /\
    table w1 !! e ≫= (.!! "verified") = Some (VBool false) /\
    unsubscribe ev w1
    = (Ok (respond 200 "You are successfully unsubscribed"), w2) /\
    table w2 !! e ≫= (.!! "verified") = Some (VBool false) /\
    outbox w2 = outbox w.
Proof.
  intros Hc Hne Htr Hwf Hu Heq Hf.
  pose proof (Hwf e u Hu) as Hem.
  pose proof (unsubscribe_accepted ev w e token u Hc Hne Htr Hu Hem Heq
                (Hf _) (Hf _)) as R1.
  set (u1 := unsubscribed_item u (clock w (ticks w))) in *.
  set (w1 := World (<[e := u1]> (table w)) _ _ _ _ _ _ _ _) in R1.
  assert (He1 : u1 !! "email" = Some (VStr e))
    by (unfold u1; by rewrite unsubscribed_item_other).
  assert (Hk1 : py_eq (dict_get u1 "token") token = true)
    by (unfold dict_get, u1; by rewrite unsubscribed_item_other).
  pose proof (unsubscribe_accepted ev w1 e token u1 Hc Hne Htr
                (lookup_insert_eq _ _ _) He1 Hk1 (Hf _) (Hf _)) as R2.
  eexists _, _. split; [exact R1|].
  subst w1. cbn [table outbox]. rewrite !lookup_insert_eq.
  cbn [mbind option_bind]. subst u1.
  split; [apply unsubscribed_item_verified|]. split; [exact R2|].
  cbn [table outbox]. rewrite lookup_insert_eq. cbn [mbind option_bind].
  split; [apply unsubscribed_item_verified|]. done.
Qed.

(** *** Tokens that rotate, tokens that stay *)


(** Once the lookup and the write have succeeded for an email with no
    active record, the new record is in the table, whether [subscribe]
    then answers 200 or fails later and answers 500. *)
Lemma subscribe_writes ev w e :
  requests ev (VStr e) -> e <> EmptyString -> inactive w e ->
  fault w (calls w) = false -> fault w (S (calls w)) = false ->
  exists resp w',
    subscribe ev w = (Ok resp, w') /\
    (resp = respond 200 "User subscribed successfully" \/
     resp = respond 500 "Internal server error") /\
    table w' = <[e := pending_item (VStr e) (next_token w)
                         (clock w (ticks w)) (clock w (S (ticks w)))]>
                 (table w) /\
    fault w' = fault w.
Proof.
  intros Hreq Hne Hin F0 F1.
  assert (Hfin : forall w',
             subscribe ev w = (Ok (respond 500 "Internal server error"), w') ->
             table w' = <[e := pending_item (VStr e) (next_token w)
                                  (clock w (ticks w))
                                  (clock w (S (ticks w)))]> (table w) ->
             fault w' = fault w ->
             exists resp w',
               subscribe ev w = (Ok resp, w') /\
               (resp = respond 200 "User subscribed successfully" \/
                resp = respond 500 "Internal server error") /\
               table w' = <[e := pending_item (VStr e) (next_token w)
                                    (clock w (ticks w))
                                    (clock w (S (ticks w)))]> (table w) /\
               fault w' = fault w).
  { intros w' Hrun Ht Hf. exists (respond 500 "Internal server error"), w'.
    split; [done|]. split; [by right|]. done. }
  destruct (files w !! "templates/verify.html") as [html|] eqn:Hh.
  2:{ eapply Hfin;
        [subscribe_to_write w e Hreq Hne Hin F0;
         rewrite F1, lookup_insert_eq; wp_steps; wp_world;
         rewrite Hh; wp_steps; split; reflexivity
        | reflexivity | reflexivity]. }
  destruct (files w !! "templates/verify.txt") as [text|] eqn:Hx.
  2:{ eapply Hfin;
        [subscribe_to_write w e Hreq Hne Hin F0;
         rewrite F1, lookup_insert_eq; wp_steps; wp_world;
         rewrite Hh; wp_steps; wp_world; rewrite Hx; wp_steps;
         split; reflexivity
        | reflexivity | reflexivity]. }
  destruct (fault w (S (S (calls w)))) eqn:F2.
  { eapply Hfin;
      [subscribe_to_write w e Hreq Hne Hin F0;
       rewrite F1, lookup_insert_eq; wp_steps; wp_world;
       rewrite Hh; wp_steps; wp_world; rewrite Hx; wp_steps; wp_world;
       rewrite F2; wp_steps; split; reflexivity
      | reflexivity | reflexivity]. }
  eexists _, _. split; [by apply (subscribe_accepted ev w e html text)|].
  split; [by left|]. done.
Qed.


(** C2, as the code has it. An [unsubscribe] that answers 200 leaves the
    token of the record in place: the stored token still equals the one
    supplied, and with no collaborator failing a further [verify] or
    [unsubscribe] with it answers with status 200. The old token stops
    working once a later [subscribe] for the email has written its new
    record with a token that differs from it, whether that [subscribe]
    goes on to answer 200 or fails after the write and answers 500:
    [verify] and [unsubscribe] with the old token then answer with
    status 400 and leave the table as it is. *)
Theorem token_survives_unsubscribe ev w resp w1 :
  wf_table (table w) ->
  unsubscribe ev w = (Ok resp, w1) ->
  statusCode resp = 200 ->
  exists e token u u1,
    carries ev (VStr e) token /\
    table w !! e = Some u /\ table w1 !! e = Some u1 /\
    u1 !! "token" = u !! "token" /\
    py_eq (dict_get u1 "token") token = true /\
    (faultless w1 -> templates_present w1 ->
     (exists w2, verify ev w1
                 = (Ok (respond 200 "User verified successfully"), w2)) /\
     (exists w2, unsubscribe ev w1
                 = (Ok (respond 200 "You are successfully unsubscribed"), w2)) /\
     (exists r, (verify ev w1).1 = Ok r /\ statusCode r = 200) /\
     (exists r, (unsubscribe ev w1).1 = Ok r /\ statusCode r = 200)) /\
    (forall evs,
       requests evs (VStr e) -> faultless w1 -> templates_present w1 ->
       py_ne (VStr (next_token w1)) token = true ->
       exists w2,
         subscribe evs w1
         = (Ok (respond 200 "User subscribed successfully"), w2) /\
         verify ev w2
         = (Ok (respond 400 "User verification failed"), called w2) /\
         unsubscribe ev w2
         = (Ok (respond 400 "Failed to unsubscribe"), called w2) /\
         table (called w2) = table w2) /\
    (forall evs,
       requests evs (VStr e) ->
       fault w1 (calls w1) = false -> fault w1 (S (calls w1)) = false ->
       py_ne (VStr (next_token w1)) token = true ->
       exists resp2 w2,
         subscribe evs w1 = (Ok resp2, w2) /\
         (statusCode resp2 = 200 \/ statusCode resp2 = 500) /\
         table w2 !! e ≫= (.!! "token") = Some (VStr (next_token w1)) /\
         (fault w2 (calls w2) = false ->
          (exists r, (verify ev w2).1 = Ok r /\ statusCode r = 400 /\
                     body r = "{" ++ dquote ++ "message" ++ dquote ++ ": "
                                  ++ dquote ++ "User verification failed"
                                  ++ dquote ++ "}") /\
          (exists r, (unsubscribe ev w2).1 = Ok r /\ statusCode r = 400 /\
                     body r = "{" ++ dquote ++ "message" ++ dquote ++ ": "
                                  ++ dquote ++ "Failed to unsubscribe"
                                  ++ dquote ++ "}") /\
          table (verify ev w2).2 = table w2 /\
          table (unsubscribe ev w2).2 = table w2)).
Proof.
  intros Hwf Hrun Hs.
  destruct (unsubscribe_commits ev w resp w1 Hwf Hrun Hs)
    as [(e & token & u & Hc & Hne & Htr & Hu & Ht & Htab) _].
  pose proof (Hwf e u Hu) as Hem.
  set (u1 := unsubscribed_item u (clock w (ticks w))) in *.
  assert (Hu1 : table w1 !! e = Some u1) by (rewrite Htab; apply lookup_insert_eq).
  assert (Hem1 : u1 !! "email" = Some (VStr e))
    by (unfold u1; by rewrite unsubscribed_item_other).
  assert (Htok : u1 !! "token" = u !! "token")
    by (unfold u1; by rewrite unsubscribed_item_other).
  assert (Ht1 : py_eq (dict_get u1 "token") token = true)
    by (unfold dict_get; by rewrite Htok).
  assert (Hin1 : inactive w1 e).
  { unfold inactive. rewrite Hu1. unfold dict_get, u1.
    rewrite unsubscribed_item_verified. apply andb_false_r. }
  exists e, token, u, u1. repeat (split; [done|]). split; [|split].
  - intros Hf (_ & _ & [h Hh] & [x Hx]).
    pose proof (verify_accepted ev w1 e token u1 h x Hc Hne Htr Hu1 Hem1 Ht1
                  (Hf _) (Hf _) (Hf _) Hh Hx) as Rv.
    pose proof (unsubscribe_accepted ev w1 e token u1 Hc Hne Htr Hu1 Hem1 Ht1
                  (Hf _) (Hf _)) as Ru.
    split; [by eexists|]. split; [by eexists|].
    split; eexists; [rewrite Rv | rewrite Ru]; by split.
  - intros evs Hreq Hf ([h Hh] & [x Hx] & _ & _) Hfresh.
    eexists. split.
    { by apply (subscribe_accepted evs w1 e h x). }
    assert (Hrej : forall o f c k i en d,
               rejects (World (<[e := pending_item (VStr e) (next_token w1)
                                        (clock w1 (ticks w1))
                                        (clock w1 (S (ticks w1)))]> (table w1))
                              o f (fault w1) c k i en d) e token).
    { intros. unfold rejects. cbn [table]. rewrite lookup_insert_eq. right.
      unfold dict_get. by rewrite pending_item_token. }
    split; [|split; [|done]].
    + apply (verify_rejected ev _ e token);
        [done | done | done | apply Hf | apply Hrej].
    + apply (unsubscribe_rejected ev _ e token);
        [done | done | done | apply Hf | apply Hrej].
  - intros evs Hreq F0 F1 Hfresh.
    destruct (subscribe_writes evs w1 e Hreq Hne Hin1 F0 F1)
      as (resp2 & w2 & Hrun2 & Hresp2 & Htab2 & Hf2).
    exists resp2, w2. split; [done|].
    split; [destruct Hresp2 as [-> | ->]; [by left | by right]|].
    split; [rewrite Htab2, lookup_insert_eq; apply pending_item_token|].
    intros F.
    assert (Hrej : rejects w2 e token).
    { unfold rejects. rewrite Htab2, lookup_insert_eq. right.
      unfold dict_get. by rewrite pending_item_token. }
    rewrite (verify_rejected ev w2 e token Hc Hne Htr F Hrej).
    rewrite (unsubscribe_rejected ev w2 e token Hc Hne Htr F Hrej).
    split; [eexists; by repeat split|]. split; [eexists; by repeat split|].
    done.
Qed.

(** *** Who may activate a record *)

Lemma lambda_handler_route_verify ev w :
  lambda_handler ev w = subscribe ev w \/
  lambda_handler ev w = unsubscribe ev w \/
  (lambda_handler ev w = verify ev w /\
   ev !! "httpMethod" = Some (VStr "GET") /\
   ev !! "path" = Some (VStr "/verify")) \/
  lambda_handler ev w = (Ok (respond 405 "Method not allowed"), w) \/
  lambda_handler ev w = (Ok (respond 500 "Internal server error"), w).
Proof.
  unfold lambda_handler, try_except, bind, subscript.
  destruct (ev !! "httpMethod") as [m|]; [|by do 4 right].
  destruct (ev !! "path") as [p|]; [|by do 4 right].
  cbn [ret].
  destruct (py_eq m (VStr "POST") && py_eq p (VStr "/subscribe")).
  { left. destruct (subscribe_answers ev w) as [r Hr].
    destruct (subscribe ev w) as [[a|e] w']; simpl in *; congruence. }
  destruct (py_eq m (VStr "GET") && py_eq p (VStr "/unsubscribe")).
  { right; left. destruct (unsubscribe_answers ev w) as [r Hr].
    destruct (unsubscribe ev w) as [[a|e] w']; simpl in *; congruence. }
  destruct (py_eq m (VStr "GET") && py_eq p (VStr "/verify")) eqn:E.
  { do 2 right; left. apply andb_true_iff in E as [A B].
    apply py_eq_str in A, B. subst.
    split; [|done]. destruct (verify_answers ev w) as [r Hr].
    destruct (verify ev w) as [[a|e] w']; simpl in *; congruence. }
  by do 3 right; left.
Qed.

Lemma subscribe_never_activates ev w e u' :
  truthy (dict_get u' "verified") = true ->
  table (subscribe ev w).2 !! e = Some u' -> table w !! e = Some u'.
Proof.
  intros Hv. pose proof (subscribe_run ev w) as (resp & _ & H).
  unfold wp in *. destruct (subscribe ev w) as [r w']. cbn [fst snd] in *.
  assert (Hp : forall e0 tok c1 c2,
             <[e0 := pending_item (VStr e0) tok c1 c2]> (table w) !! e
             = Some u' -> table w !! e = Some u').
  { intros e0 tok c1 c2 Hl. destruct (decide (e0 = e)) as [->|Hd].
    - rewrite lookup_insert_eq in Hl. injection Hl as <-.
      unfold dict_get in Hv. rewrite pending_item_verified in Hv.
      discriminate Hv.
    - by rewrite lookup_insert_ne in Hl. }
  destruct H as [(_ & ->) | [(_ & -> & _) | [(_ & H) | (_ & _ & _ & H)]]];
    try done.
  - destruct H as (e0 & html & text & _ & _ & _ & _ & _ & ->). apply Hp.
  - destruct H as [-> | (e0 & _ & _ & _ & ->)]; [done | apply Hp].
Qed.

Lemma unsubscribe_never_activates ev w e u' :
  wf_table (table w) ->
  truthy (dict_get u' "verified") = true ->
  table (unsubscribe ev w).2 !! e = Some u' -> table w !! e = Some u'.
Proof.
  intros Hwf Hv. pose proof (unsubscribe_run ev w Hwf) as (resp & _ & H).
  unfold wp in *. destruct (unsubscribe ev w) as [r w']. cbn [fst snd] in *.
  destruct H as [(_ & ->) | [(_ & -> & _) | [(_ & H) | (_ & _ & _ & ->)]]];
    try done.
  destruct H as (e0 & token & u & _ & _ & _ & _ & _ & ->). cbn [table].
  intros Hl. destruct (decide (e0 = e)) as [->|Hd].
  - rewrite lookup_insert_eq in Hl. injection Hl as <-.
    unfold dict_get in Hv. rewrite unsubscribed_item_verified in Hv.
    discriminate Hv.
  - by rewrite lookup_insert_ne in Hl.
Qed.

Lemma verify_activates_with_token ev w e u' :
  wf_table (table w) ->
  truthy (dict_get u' "verified") = true ->
  table (verify ev w).2 !! e = Some u' ->
  table w !! e = Some u' \/
  exists token u,
    carries ev (VStr e) token /\ truthy token = true /\
    table w !! e = Some u /\ py_eq (dict_get u "token") token = true /\
    u' = verified_item u (clock w (ticks w)).
Proof.
  intros Hwf Hv Hl.
  destruct (verify_wrote ev w Hwf) as [Ht | (e0 & u0 & Ht & _ & Hact)].
  - left. by rewrite <- Ht.
  - rewrite Ht in Hl. destruct (decide (e0 = e)) as [->|Hd].
    + rewrite lookup_insert_eq in Hl. injection Hl as ->.
      right. by apply Hact.
    + left. by rewrite lookup_insert_ne in Hl.
Qed.

(** X4. Double opt-in. [subscribe] and [unsubscribe] never produce an
    active record: a record that is active after either of them is the
    record that was stored before. Through [lambda_handler], a record
    that is active after a request either is the record that was stored
    before, or was written by a GET /verify request that carried, for
    that email, a token equal to the one stored. *)
Theorem activation_needs_token ev w e u' :
  wf_table (table w) ->
  truthy (dict_get u' "verified") = true ->
  (table (subscribe ev w).2 !! e = Some u' -> table w !! e = Some u') /\
  (table (unsubscribe ev w).2 !! e = Some u' -> table w !! e = Some u') /\
  (table (lambda_handler ev w).2 !! e = Some u' ->
   table w !! e = Some u' \/
   (ev !! "httpMethod" = Some (VStr "GET") /\
    ev !! "path" = Some (VStr "/verify") /\
    exists token u,
      carries ev (VStr e) token /\ truthy token = true /\
      table w !! e = Some u /\ py_eq (dict_get u "token") token = true /\
      u' = verified_item u (clock w (ticks w)))).
Proof.
  intros Hwf Hv.
  split; [by apply subscribe_never_activates|].
  split; [by apply unsubscribe_never_activates|].
  destruct (lambda_handler_route_verify ev w)
    as [-> | [-> | [(-> & Hm & Hp) | [-> | ->]]]].
  - intros Hl. left. by apply (subscribe_never_activates ev).
  - intros Hl. left. by apply (unsubscribe_never_activates ev).
  - intros Hl.
    destruct (verify_activates_with_token ev w e u' Hwf Hv Hl) as [H | H];
      [by left | right; done].
  - by left.
  - by left.
Qed.

End Handler.

(** ** The theorems at the sample data *)

Lemma demo_faultless t : faultless (demo_world t no_fault).
Proof. intros n. reflexivity. Qed.

Lemma demo_templates t f : templates_present (demo_world t f).
Proof. repeat split; eexists; reflexivity. Qed.

Lemma demo_wf verified : wf_table (<[alice := alice_record verified]> ∅).
Proof.
  intros e u H. apply lookup_insert_Some in H as [[<- <-] | [_ H]].
  - reflexivity.
  - by rewrite lookup_empty in H.
Qed.

Lemma demo_requests : requests demo_loads ev_subscribe (VStr alice).
Proof.
  exists (<["email" := VStr alice]> ∅). split; [intros w|]; reflexivity.
Qed.

Lemma demo_carries_verify token :
  carries (ev_verify token) (VStr alice) (VStr token).
Proof. eexists. repeat split; reflexivity. Qed.

Lemma demo_carries_unsubscribe token :
  carries (ev_unsubscribe token) (VStr alice) (VStr token).
Proof. eexists. repeat split; reflexivity. Qed.

Lemma demo_unsubscribe_run :
  unsubscribe (ev_unsubscribe alice_token) (world_with true no_fault)
  = (Ok (respond 200 "You are successfully unsubscribed"),
     (unsubscribe (ev_unsubscribe alice_token) (world_with true no_fault)).2).
Proof. vm_compute. reflexivity. Qed.

(** Scenario A of the specification: subscribe, verify with the token
    sent, unsubscribe with the same token. *)
Example scenario_subscribe_verify_unsubscribe :
  let run := lambda_handler demo_loads demo_str demo_domain demo_from in
  let '(r1, w1) := run ev_subscribe world_empty in
  let '(r2, w2) := run (ev_verify alice_token) w1 in
  let '(r3, w3) := run (ev_unsubscribe alice_token) w2 in
  r1 = Ok (respond 200 "User subscribed successfully") /\
  table w1 !! alice ≫= (.!! "token") = Some (VStr alice_token) /\
  table w1 !! alice ≫= (.!! "verified") = Some (VBool false) /\
  r2 = Ok (respond 200 "User verified successfully") /\
  table w2 !! alice ≫= (.!! "verified") = Some (VBool true) /\
  r3 = Ok (respond 200 "You are successfully unsubscribed") /\
  table w3 !! alice ≫= (.!! "verified") = Some (VBool false) /\
  length (outbox w3) = 2%nat.
Proof. vm_compute. by repeat split. Qed.

Lemma lambda_handler_dispatch_witness :
  lambda_handler demo_loads demo_str demo_domain demo_from ev_delete world_empty
  = (Ok (respond 405 "Method not allowed"), world_empty).
Proof.
  destruct (lambda_handler_dispatch demo_loads demo_str demo_domain demo_from
              ev_delete world_empty (VStr "DELETE") (VStr "/subscribe")
              eq_refl eq_refl) as (_ & _ & _ & H).
  apply H. rewrite !elem_of_cons, elem_of_nil.
  intros [E | [E | [E | []]]]; discriminate E.
Defined.

Lemma absent_query_map_is_internal_error_witness :
  verify demo_str demo_domain demo_from ev_bare world_empty
  = (Ok (respond 500 "Internal server error"), world_empty).
Proof.
  apply (absent_query_map_is_internal_error demo_str demo_domain demo_from
           ev_bare world_empty).
  right. reflexivity.
Defined.


Lemma verify_unsubscribe_outcomes_witness :
  exists resp w',
    verify demo_str demo_domain demo_from (ev_verify alice_token)
      (world_with false no_fault) = (Ok resp, w') /\
    (statusCode resp = 200 \/ statusCode resp = 400 \/ statusCode resp = 500).
Proof.
  destruct (verify_unsubscribe_outcomes demo_str demo_domain demo_from
              (ev_verify alice_token) (world_with false no_fault)
              (demo_wf false)) as [(resp & w' & E & S & _) _].
  exists resp, w'. split; [exact E | exact S].
Defined.

(** C3, where it fails: the sender is down, [verify] answers 500, and the
    record has been written as verified all the same. *)
Lemma verify_fault_after_write :
  let w := world_with false third_call_fails in
  let out := verify demo_str demo_domain demo_from (ev_verify alice_token) w in
  out.1 = Ok (respond 500 "Internal server error") /\
  statusCode (respond 500 "Internal server error") = 500 /\
  table w !! alice ≫= (.!! "verified") = Some (VBool false) /\
  table out.2 !! alice ≫= (.!! "verified") = Some (VBool true) /\
  table out.2 <> table w /\
  outbox out.2 = [].
Proof.
  intros w out.
  assert (Hb : table w !! alice ≫= (.!! "verified") = Some (VBool false))
    by (vm_compute; reflexivity).
  assert (Ha : table out.2 !! alice ≫= (.!! "verified") = Some (VBool true))
    by (vm_compute; reflexivity).
  split; [vm_compute; reflexivity|]. split; [reflexivity|].
  split; [exact Hb|]. split; [exact Ha|].
  split; [|vm_compute; reflexivity].
  intros E. rewrite E, Hb in Ha. discriminate Ha.
Qed.

Lemma unsubscribe_frame_witness :
  exists e token (u u' : gmap string value),
    carries (ev_unsubscribe alice_token) (VStr e) token /\
    table (world_with true no_fault) !! e = Some u /\
    u' !! "verified" = Some (VBool false) /\
    u' !! "token" = u !! "token".
Proof.
  destruct (unsubscribe_frame (ev_unsubscribe alice_token)
              (world_with true no_fault)
              (respond 200 "You are successfully unsubscribed")
              (unsubscribe (ev_unsubscribe alice_token)
                 (world_with true no_fault)).2
              (demo_wf true) demo_unsubscribe_run eq_refl)
    as (e & token & u & u' & Hc & Hu & _ & _ & Hv & _ & _ & _ & Ht & _).
  exists e, token, u, u'. repeat split; assumption.
Defined.


Lemma subscribe_any_nonempty_email_witness :
  exists w' u,
    subscribe demo_loads demo_str demo_domain demo_from ev_subscribe_odd
      world_empty
    = (Ok (respond 200 "User subscribed successfully"), w') /\
    table w' !! "not an address" = Some u /\
    u !! "verified" = Some (VBool false).
Proof.
  destruct (subscribe_any_nonempty_email demo_loads demo_str demo_domain
              demo_from ev_subscribe_odd world_empty "not an address"
              verify_html verify_txt)
    as (w' & u & E & _ & Hu & _ & _ & _ & Hv & _);
    [eexists; split; [intros w|]; reflexivity | discriminate | exact I
    | reflexivity | reflexivity | reflexivity | reflexivity | reflexivity |].
  exists w', u. repeat split; assumption.
Defined.



Lemma verify_twice_witness :
  exists w1 w2,
    verify demo_str demo_domain demo_from (ev_verify alice_token)
      (world_with false no_fault)
    = (Ok (respond 200 "User verified successfully"), w1) /\
    verify demo_str demo_domain demo_from (ev_verify alice_token) w1
    = (Ok (respond 200 "User verified successfully"), w2) /\
    table w2 !! alice ≫= (.!! "verified") = Some (VBool true).
Proof.
  destruct (verify_twice demo_str demo_domain demo_from
              (ev_verify alice_token) (world_with false no_fault) alice
              (VStr alice_token) (alice_record false))
    as (w1 & w2 & u1 & u2 & E1 & _ & _ & E2 & Hu2 & Hv2 & _);
    [apply demo_carries_verify | discriminate | reflexivity | apply demo_wf
    | reflexivity | reflexivity | apply demo_faultless | apply demo_templates |].
  exists w1, w2. repeat split; try assumption.
  rewrite Hu2. exact Hv2.
Defined.

Lemma token_survives_unsubscribe_witness :
  exists e token (u u1 : gmap string value),
    carries (ev_unsubscribe alice_token) (VStr e) token /\
    table (world_with true no_fault) !! e = Some u /\
    u1 !! "token" = u !! "token" /\
    py_eq (dict_get u1 "token") token = true.
Proof.
  destruct (token_survives_unsubscribe demo_loads demo_str demo_domain demo_from
              (ev_unsubscribe alice_token) (world_with true no_fault)
              (respond 200 "You are successfully unsubscribed")
              (unsubscribe (ev_unsubscribe alice_token)
                 (world_with true no_fault)).2
              (demo_wf true) demo_unsubscribe_run eq_refl)
    as (e & token & u & u1 & Hc & Hu & _ & Ht & Hp & _).
  exists e, token, u, u1. repeat split; assumption.
Defined.

(** C2, where it fails: after an [unsubscribe] that answers 200, [verify]
    and [unsubscribe] with the same token answer 200 again, and the record
    is verified once more. *)
Lemma old_token_still_valid_after_unsubscribe :
  let w := world_with true no_fault in
  let '(r1, w1) := unsubscribe (ev_unsubscribe alice_token) w in
  let '(r2, w2) := verify demo_str demo_domain demo_from
                     (ev_verify alice_token) w1 in
  let '(r3, w3) := unsubscribe (ev_unsubscribe alice_token) w1 in
  r1 = Ok (respond 200 "You are successfully unsubscribed") /\
  table w1 !! alice ≫= (.!! "verified") = Some (VBool false) /\
  table w1 !! alice ≫= (.!! "token") = Some (VStr alice_token) /\
  r2 = Ok (respond 200 "User verified successfully") /\
  table w2 !! alice ≫= (.!! "verified") = Some (VBool true) /\
  r3 = Ok (respond 200 "You are successfully unsubscribed").
Proof. vm_compute. by repeat split. Qed.

(** ** The further theorems at the sample data *)

Lemma demo_subscribe_run :
  subscribe demo_loads demo_str demo_domain demo_from ev_subscribe world_empty
  = (Ok (respond 200 "User subscribed successfully"),
     (subscribe demo_loads demo_str demo_domain demo_from ev_subscribe
        world_empty).2).
Proof. vm_compute. reflexivity. Qed.

Lemma demo_verify_run :
  verify demo_str demo_domain demo_from (ev_verify alice_token)
    (world_with false no_fault)
  = (Ok (respond 200 "User verified successfully"),
     (verify demo_str demo_domain demo_from (ev_verify alice_token)
        (world_with false no_fault)).2).
Proof. vm_compute. reflexivity. Qed.

Lemma demo_inactive_pending f : inactive (world_with false f) alice.
Proof. vm_compute. reflexivity. Qed.

Lemma demo_wf_empty : wf_table (table world_empty).
Proof.
  intros e u H.
  change (table world_empty) with (∅ : gmap string (gmap string value)) in H.
  by rewrite lookup_empty in H.
Qed.

Lemma lambda_handler_isolation_witness :
  names demo_loads ev_subscribe alice.
Proof.
  apply (lambda_handler_isolation demo_loads demo_str demo_domain demo_from
           ev_subscribe world_empty alice).
  - apply demo_wf_empty.
  - intros E.
    apply (f_equal (fun o : option (gmap string value) =>
                      match o with Some _ => true | None => false end)) in E.
    vm_compute in E. discriminate E.
Defined.

Lemma activation_needs_token_witness :
  table (world_with false no_fault) !! alice
  = Some (verified_item (alice_record false) (demo_clock 0)) \/
  (ev_verify alice_token !! "httpMethod" = Some (VStr "GET") /\
   ev_verify alice_token !! "path" = Some (VStr "/verify") /\
   exists token u,
     carries (ev_verify alice_token) (VStr alice) token /\
     truthy token = true /\
     table (world_with false no_fault) !! alice = Some u /\
     py_eq (dict_get u "token") token = true /\
     verified_item (alice_record false) (demo_clock 0)
     = verified_item u (clock (world_with false no_fault)
                          (ticks (world_with false no_fault)))).
Proof.
  destruct (activation_needs_token demo_loads demo_str demo_domain demo_from
              (ev_verify alice_token) (world_with false no_fault) alice
              (verified_item (alice_record false) (demo_clock 0))
              (demo_wf false) eq_refl) as (_ & _ & H).
  apply H. vm_compute. reflexivity.
Defined.

Lemma verify_success_witness :
  exists e token (u u' : gmap string value),
    carries (ev_verify alice_token) (VStr e) token /\
    table (world_with false no_fault) !! e = Some u /\
    u' !! "verified" = Some (VBool true).
Proof.
  destruct (verify_success demo_str demo_domain demo_from
              (ev_verify alice_token) (world_with false no_fault)
              (respond 200 "User verified successfully")
              (verify demo_str demo_domain demo_from (ev_verify alice_token)
                 (world_with false no_fault)).2
              (demo_wf false) demo_verify_run eq_refl)
    as (e & token & u & u' & html & text & Hc & Hu & _ & _ & Hv & _).
  exists e, token, u, u'. repeat split; assumption.
Defined.

Lemma subscribe_success_witness :
  exists e token,
    requests demo_loads ev_subscribe (VStr e) /\
    token = next_token world_empty.
Proof.
  destruct (subscribe_success demo_loads demo_str demo_domain demo_from
              ev_subscribe world_empty
              (respond 200 "User subscribed successfully")
              (subscribe demo_loads demo_str demo_domain demo_from
                 ev_subscribe world_empty).2
              demo_subscribe_run eq_refl)
    as (e & token & html & text & Hreq & _ & _ & Ht & _).
  exists e, token. split; assumption.
Defined.

Lemma lambda_handler_without_route_witness :
  lambda_handler demo_loads demo_str demo_domain demo_from ∅ world_empty
  = (Ok (respond 500 "Internal server error"), world_empty).
Proof.
  apply (lambda_handler_without_route demo_loads demo_str demo_domain demo_from).
  left. reflexivity.
Defined.

Lemma subscribe_requires_email_witness :
  subscribe demo_loads demo_str demo_domain demo_from ev_subscribe_blank
    world_empty
  = (Ok (respond 400 "Email is required"), world_empty).
Proof.
  apply (subscribe_requires_email demo_loads demo_str demo_domain demo_from
           ev_subscribe_blank world_empty ∅); reflexivity.
Defined.

Lemma subscribe_bad_body_witness :
  subscribe demo_loads demo_str demo_domain demo_from ev_subscribe_no_body
    world_empty
  = (Ok (respond 500 "Internal server error"), world_empty).
Proof.
  apply (subscribe_bad_body demo_loads demo_str demo_domain demo_from).
  intros b E. vm_compute in E. discriminate E.
Defined.

Lemma parameters_required_witness :
  verify demo_str demo_domain demo_from (ev_verify EmptyString) world_empty
  = (Ok (respond 400 "Email and token are required"), world_empty) /\
  unsubscribe (ev_verify EmptyString) world_empty
  = (Ok (respond 400 "Email and token are required"), world_empty).
Proof.
  apply (parameters_required demo_str demo_domain demo_from
           (ev_verify EmptyString) world_empty (VStr alice)
           (VStr EmptyString)).
  - apply demo_carries_verify.
  - right. reflexivity.
Defined.

Lemma store_down_is_500_witness :
  subscribe demo_loads demo_str demo_domain demo_from ev_subscribe
    (world_with true all_calls_fail)
  = (Ok (respond 500 "Internal server error"),
     called (world_with true all_calls_fail)) /\
  verify demo_str demo_domain demo_from (ev_verify alice_token)
    (world_with true all_calls_fail)
  = (Ok (respond 500 "Internal server error"),
     called (world_with true all_calls_fail)).
Proof.
  destruct (store_down_is_500 demo_loads demo_str demo_domain demo_from
              ev_subscribe (<["email" := VStr alice]> ∅)
              (ev_verify alice_token) (VStr alice) (VStr alice_token)
              (world_with true all_calls_fail))
    as (Hs & Hv & _);
    [reflexivity | reflexivity | apply demo_carries_verify | reflexivity
    | reflexivity | reflexivity |].
  split; assumption.
Defined.

Lemma subscribe_write_fault_witness :
  exists w',
    subscribe demo_loads demo_str demo_domain demo_from ev_subscribe
      (world_with false second_call_fails)
    = (Ok (respond 500 "Internal server error"), w') /\
    table w' = table (world_with false second_call_fails).
Proof.
  destruct (subscribe_write_fault demo_loads demo_str demo_domain demo_from
              ev_subscribe (world_with false second_call_fails) alice)
    as (w' & E & Ht & _);
    [apply demo_requests | discriminate | apply demo_inactive_pending
    | reflexivity | reflexivity |].
  exists w'. split; assumption.
Defined.

Lemma subscribe_fault_after_write_witness :
  exists w',
    subscribe demo_loads demo_str demo_domain demo_from ev_subscribe
      (world_with false third_call_fails)
    = (Ok (respond 500 "Internal server error"), w') /\
    table w' !! alice ≫= (.!! "token")
    = Some (VStr (next_token (world_with false third_call_fails))).
Proof.
  destruct (subscribe_fault_after_write demo_loads demo_str demo_domain
              demo_from ev_subscribe (world_with false third_call_fails) alice)
    as (w' & E & _ & _ & Ht);
    [apply demo_requests | discriminate | apply demo_inactive_pending
    | reflexivity | reflexivity | right; right; reflexivity |].
  exists w'. split; assumption.
Defined.

Lemma subscribe_token_shape_witness :
  exists e token,
    requests demo_loads ev_subscribe (VStr e) /\
    String.length token = 32%nat /\
    all_chars is_hex_digit token = true.
Proof.
  destruct (subscribe_token_shape demo_loads demo_str demo_domain demo_from
              ev_subscribe world_empty
              (respond 200 "User subscribed successfully")
              (subscribe demo_loads demo_str demo_domain demo_from
                 ev_subscribe world_empty).2
              demo_subscribe_run eq_refl)
    as (e & token & Hreq & _ & Hl & Hd).
  exists e, token. repeat split; assumption.
Defined.

Lemma subscribe_verify_unsubscribe_witness :
  exists w1 w2 w3,
    subscribe demo_loads demo_str demo_domain demo_from ev_subscribe world_empty
    = (Ok (respond 200 "User subscribed successfully"), w1) /\
    verify demo_str demo_domain demo_from (ev_verify alice_token) w1
    = (Ok (respond 200 "User verified successfully"), w2) /\
    unsubscribe (ev_unsubscribe alice_token) w2
    = (Ok (respond 200 "You are successfully unsubscribed"), w3) /\
    table w3 !! alice ≫= (.!! "verified") = Some (VBool false).
Proof.
  destruct (subscribe_verify_unsubscribe demo_loads demo_str demo_domain
              demo_from ev_subscribe (ev_verify alice_token)
              (ev_unsubscribe alice_token) world_empty alice)
    as (w1 & w2 & w3 & E1 & E2 & E3 & _ & _ & Hv & _);
    [apply demo_requests | discriminate | exact I | apply demo_faultless
    | apply demo_templates | apply demo_carries_verify
    | apply demo_carries_unsubscribe |].
  exists w1, w2, w3. repeat split; assumption.
Defined.

Lemma unsubscribe_twice_witness :
  exists w1 w2,
    unsubscribe (ev_unsubscribe alice_token) (world_with false no_fault)
    = (Ok (respond 200 "You are successfully unsubscribed"), w1) /\
    unsubscribe (ev_unsubscribe alice_token) w1
    = (Ok (respond 200 "You are successfully unsubscribed"), w2) /\
    outbox w2 = outbox (world_with false no_fault).
Proof.
  destruct (unsubscribe_twice (ev_unsubscribe alice_token)
              (world_with false no_fault) alice (VStr alice_token)
              (alice_record false))
    as (w1 & w2 & E1 & _ & E2 & _ & Ho);
    [apply demo_carries_unsubscribe | discriminate | reflexivity
    | apply demo_wf | reflexivity | reflexivity | apply demo_faultless |].
  exists w1, w2. repeat split; assumption.
Defined.
